(** * GitLab client-go: instance CI variables and Sidekiq metrics services

    A shallow embedding of
    [vendor/gitlab.com/gitlab-org/api/client-go/instance_variables.go] and
    [vendor/gitlab.com/gitlab-org/api/client-go/sidekiq_metrics.go].

    Go strings are byte sequences: they are [string] here (a list of 8-bit
    [ascii]).  A Go pointer that may be nil is an [option]; a Go [error]
    value is [option error], [None] being nil.  The shared [*Client], whose
    [NewRequest] and [Do] methods are not part of the two files, is an
    external collaborator: every service method is a program in a small
    monad of client calls, and is run against an arbitrary transport. *)

From Stdlib Require Import Ascii.
From stdpp Require Import base option list strings gmap.

Open Scope string_scope.

(** ** Pointers, slices and results *)

(** A Go pointer [*T]: [None] is nil, [Some v] points at a cell holding [v]. *)
Definition ptr (T : Type) : Type := option T.

(** A Go slice [[]T]: [None] is the nil slice. *)
Definition slice (T : Type) : Type := option (list T).

(** A Go [(value, error)] pair in which exactly one side is meaningful. *)
Inductive result (A E : Type) : Type :=
| Ok (a : A)
| Err (e : E).
Arguments Ok {A E} a.
Arguments Err {A E} e.

(** ** net/url: escaping of one path segment *)

Module url.

(** [EscapeError] of net/url: the offending piece of the input. *)
Definition EscapeError : Type := string.

Definition byte (c : ascii) : N := N_of_ascii c.

(** [lo <= c && c <= hi] on bytes. *)
Definition between (lo hi c : ascii) : bool :=
  (byte lo <=? byte c)%N && (byte c <=? byte hi)%N.

Definition is_byte (c : ascii) (l : list ascii) : bool :=
  bool_decide (c ∈ l).

(** Modelled from the spec: the standard library's [net/url] is not under
    src/; the spec asks that the key be "percent-encoded into the path
    segment".  This is [shouldEscape(c, encodePathSegment)]: letters,
    digits and [-_.~] stay; of the reserved bytes [$&+,/:;=?@] only
    [/ ; , ?] are escaped; every other byte is escaped. *)
Definition shouldEscape (c : ascii) : bool :=
  if between "a" "z" c || between "A" "Z" c || between "0" "9" c then false
  else if is_byte c ["-"; "_"; "."; "~"]%char then false
  else if is_byte c ["$"; "&"; "+"; ","; "/"; ":"; ";"; "="; "?"; "@"]%char
       then is_byte c ["/"; ";"; ","; "?"]%char
  else true.

Definition upperhex : string := "0123456789ABCDEF".

(** [upperhex[n]]; [n] is a nibble wherever this is used. *)
Definition hexdigit (n : N) : ascii :=
  default "0"%char (String.get (N.to_nat n) upperhex).

(** Modelled from the spec: [escape(s, encodePathSegment)] of net/url.  An
    escaped byte [c] becomes ['%'], [upperhex[c>>4]], [upperhex[c&15]];
    any other byte is copied. *)
Fixpoint escape (s : string) : string :=
  match s with
  | EmptyString => EmptyString
  | String c r =>
      if shouldEscape c
      then String "%" (String (hexdigit (N.shiftr (byte c) 4))
                         (String (hexdigit (N.land (byte c) 15)) (escape r)))
      else String c (escape r)
  end.

Definition PathEscape (s : string) : string := escape s.

Definition ishex (c : ascii) : bool :=
  between "0" "9" c || between "a" "f" c || between "A" "F" c.

Definition unhex (c : ascii) : N :=
  if between "0" "9" c then byte c - byte "0"
  else if between "a" "f" c then byte c - byte "a" + 10
  else if between "A" "F" c then byte c - byte "A" + 10
  else 0.

(** The first three bytes of [s] (fewer when [s] is shorter): what an
    [EscapeError] reports. *)
Definition prefix3 (s : string) : string := String.substring 0 3 s.

(** Modelled from the spec: [unescape(s, encodePathSegment)] of net/url.
    A ['%'] must be followed by two hex digits and stands for the byte
    they spell; in this mode ['+'] and every other byte stand for
    themselves. *)
Fixpoint unescape (s : string) : result string EscapeError :=
  match s with
  | EmptyString => Ok EmptyString
  | String c r =>
      if bool_decide (c = "%"%char) then
        match r with
        | String a (String b r') =>
            if ishex a && ishex b then
              match unescape r' with
              | Ok t => Ok (String (ascii_of_N (N.lor (N.shiftl (unhex a) 4) (unhex b))) t)
              | Err e => Err e
              end
            else Err (prefix3 s)
        | _ => Err (prefix3 s)
        end
      else
        match unescape r with
        | Ok t => Ok (String c t)
        | Err e => Err e
        end
  end.

Definition PathUnescape (s : string) : result string EscapeError := unescape s.

End url.

(** [fmt.Sprintf("admin/ci/variables/%s", x)]: the verb [%s] on a string
    argument splices it in unchanged. *)
Definition Sprintf_variables (x : string) : string := "admin/ci/variables/" +:+ x.

(** The text after the last ['/'] of a path (the whole path when it has
    none): its last segment. *)
Fixpoint last_segment (p : string) : string :=
  match p with
  | EmptyString => EmptyString
  | String c r =>
      if bool_decide ("/"%char ∈ String.list_ascii_of_string r) then last_segment r
      else if bool_decide (c = "/"%char) then r
      else p
  end.

(** ** net/http: the method names used by the two services *)

Module http.
Definition MethodGet : string := "GET".
Definition MethodPost : string := "POST".
Definition MethodPut : string := "PUT".
Definition MethodDelete : string := "DELETE".
End http.

(** ** Declarations of package gitlab that the two files use but do not
    contain *)

(** [Client] is what [*Client] points to, [Request] and [Response] what
    [NewRequest] and [Do] hand back behind pointers, [error] the non-nil
    error values.  [VariableTypeValue] has a zero value, as every Go type
    does; [Time] is [time.Time]. *)
Class ClientAPI : Type := {
  Client : Type;
  Request : Type;
  Response : Type;
  error : Type;
  RequestOptionFunc : Type;
  ListOptions : Type;
  VariableTypeValue : Type;
  VariableTypeValue_zero : VariableTypeValue;
  Time : Type;
}.

(** ** Data model of instance_variables.go *)

Module InstanceVariable.
Record t `{ClientAPI} : Type := {
  Key : string;
  Value : string;
  VariableType : VariableTypeValue;
  Protected : bool;
  Masked : bool;
  Raw : bool;
  Description : string;
}.
(** The value [new(InstanceVariable)] points to. *)
Definition zero `{ClientAPI} : t := {|
  Key := ""; Value := ""; VariableType := VariableTypeValue_zero;
  Protected := false; Masked := false; Raw := false; Description := "";
|}.
End InstanceVariable.
Abbreviation InstanceVariable := InstanceVariable.t.

(** [type ListInstanceVariablesOptions ListOptions] *)
Definition ListInstanceVariablesOptions `{ClientAPI} : Type := ListOptions.

Module CreateInstanceVariableOptions.
Record t `{ClientAPI} : Type := {
  Key : ptr string;
  Value : ptr string;
  Description : ptr string;
  Masked : ptr bool;
  Protected : ptr bool;
  Raw : ptr bool;
  VariableType : ptr VariableTypeValue;
}.
End CreateInstanceVariableOptions.
Abbreviation CreateInstanceVariableOptions := CreateInstanceVariableOptions.t.

Module UpdateInstanceVariableOptions.
Record t `{ClientAPI} : Type := {
  Value : ptr string;
  Description : ptr string;
  Masked : ptr bool;
  Protected : ptr bool;
  Raw : ptr bool;
  VariableType : ptr VariableTypeValue;
}.
End UpdateInstanceVariableOptions.
Abbreviation UpdateInstanceVariableOptions := UpdateInstanceVariableOptions.t.

(** ** Data model of sidekiq_metrics.go *)

(** Go's [int] carries no arithmetic here: it is a [Z].  The anonymous
    struct types of the snapshots are given names. *)

Module Queue.
Record t : Type := { Backlog : Z; Latency : Z }.
End Queue.

Module QueueMetrics.
(** [Queues] is a Go map, nil in a fresh value. *)
Record t : Type := { Queues : ptr (gmap string Queue.t) }.
Definition zero : t := {| Queues := None |}.
End QueueMetrics.
Abbreviation QueueMetrics := QueueMetrics.t.

Module Process.
Record t `{ClientAPI} : Type := {
  Hostname : string;
  Pid : Z;
  Tag : string;
  StartedAt : ptr Time;
  Queues : slice string;
  Labels : slice string;
  Concurrency : Z;
  Busy : Z;
}.
End Process.

Module ProcessMetrics.
Record t `{ClientAPI} : Type := { Processes : slice Process.t }.
Definition zero `{ClientAPI} : t := {| Processes := None |}.
End ProcessMetrics.
Abbreviation ProcessMetrics := ProcessMetrics.t.

Module Jobs.
Record t : Type := { Processed : Z; Failed : Z; Enqueued : Z }.
Definition zero : t := {| Processed := 0; Failed := 0; Enqueued := 0 |}.
End Jobs.

Module JobStats.
Record t : Type := { Jobs : Jobs.t }.
Definition zero : t := {| Jobs := Jobs.zero |}.
End JobStats.
Abbreviation JobStats := JobStats.t.

Module CompoundMetrics.
(** Three embedded structs: each is a field named after its type. *)
Record t `{ClientAPI} : Type := {
  QueueMetrics : QueueMetrics.t;
  ProcessMetrics : ProcessMetrics.t;
  JobStats : JobStats.t;
}.
Definition zero `{ClientAPI} : t := {|
  QueueMetrics := QueueMetrics.zero;
  ProcessMetrics := ProcessMetrics.zero;
  JobStats := JobStats.zero;
|}.
End CompoundMetrics.
Abbreviation CompoundMetrics := CompoundMetrics.t.

(** ** Calls on the shared client *)

Section Calls.
Context `{ClientAPI}.

(** What a method passes as [opt any] to [NewRequest]. *)
Inductive Body : Type :=
| nil_body
| list_options (opt : ptr ListInstanceVariablesOptions)
| create_options (opt : ptr CreateInstanceVariableOptions)
| update_options (opt : ptr UpdateInstanceVariableOptions).

(** What a method passes as [v any] to [Do]: nil, or a pointer to a
    variable of one of these types, which [Do] may write to. *)
Inductive Target : Type :=
| into_nil
| into_InstanceVariables
| into_InstanceVariable
| into_QueueMetrics
| into_ProcessMetrics
| into_JobStats
| into_CompoundMetrics.

(** The contents of the variable [v] points to. *)
Definition cell (t : Target) : Type :=
  match t with
  | into_nil => unit
  | into_InstanceVariables => slice (ptr InstanceVariable)
  | into_InstanceVariable => InstanceVariable
  | into_QueueMetrics => QueueMetrics
  | into_ProcessMetrics => ProcessMetrics
  | into_JobStats => JobStats
  | into_CompoundMetrics => CompoundMetrics
  end.

(** A computation that calls the client: it ends with a value, or calls
    [NewRequest] or [Do] and goes on with what the call returned.  [Do]
    returns, next to its two results, the contents of [*v] after the
    call. *)
Inductive Prog (A : Type) : Type :=
| Ret (a : A)
| CallNewRequest (c : Client) (method u : string) (opt : Body)
    (options : list RequestOptionFunc)
    (k : ptr Request * option error → Prog A)
| CallDo (c : Client) (req : ptr Request) (t : Target) (v : cell t)
    (k : ptr Response * option error * cell t → Prog A).
Global Arguments Ret {A} a.
Global Arguments CallNewRequest {A} c method u opt options k.
Global Arguments CallDo {A} c req t v k.

(** A method with receiver [s *S]: the receiver's struct is threaded
    through as state. *)
Definition M (S A : Type) : Type := S → Prog (A * S).

Fixpoint Prog_bind {A B} (p : Prog A) (f : A → Prog B) : Prog B :=
  match p with
  | Ret a => f a
  | CallNewRequest c method u opt options k =>
      CallNewRequest c method u opt options (λ r, Prog_bind (k r) f)
  | CallDo c req t v k => CallDo c req t v (λ r, Prog_bind (k r) f)
  end.

Global Instance M_ret {S} : MRet (M S) := λ A a s, Ret (a, s).
Global Instance M_bind {S} : MBind (M S) :=
  λ A B f m s, Prog_bind (m s) (λ '(a, s'), f a s').

(** Reading a field of the receiver, and assigning to the receiver. *)
Definition gets {S A} (f : S → A) : M S A := λ s, Ret (f s, s).
Definition put {S} (s' : S) : M S unit := λ _, Ret (tt, s').

Definition NewRequest {S} (c : Client) (method u : string) (opt : Body)
    (options : list RequestOptionFunc) : M S (ptr Request * option error) :=
  λ s, CallNewRequest c method u opt options (λ r, Ret (r, s)).

Definition Do {S} (c : Client) (req : ptr Request) (t : Target) (v : cell t)
    : M S (ptr Response * option error * cell t) :=
  λ s, CallDo c req t v (λ r, Ret (r, s)).

(** *** Running a computation against a transport *)

(** A transport answers the two calls; [W] is whatever the answers depend
    on and change (the network, the server, the client's own state). *)
Record Transport (W : Type) : Type := {
  on_NewRequest : Client → string → string → Body → list RequestOptionFunc →
                  W → ptr Request * option error * W;
  on_Do : Client → ptr Request → ∀ t : Target, cell t →
          W → ptr Response * option error * cell t * W;
}.
Global Arguments on_NewRequest {W} _ _ _ _ _ _ _.
Global Arguments on_Do {W} _ _ _ _ _ _.

(** The calls a run makes, in order, each with what it was given and
    what it returned. *)
Inductive Call : Type :=
| NewRequest_call (c : Client) (method u : string) (opt : Body)
    (options : list RequestOptionFunc)
    (req : ptr Request) (err : option error)
| Do_call (c : Client) (req : ptr Request) (t : Target) (v : cell t)
    (resp : ptr Response) (err : option error) (v' : cell t).

Fixpoint run {W A} (T : Transport W) (p : Prog A) (w : W) : A * W * list Call :=
  match p with
  | Ret a => (a, w, [])
  | CallNewRequest c method u opt options k =>
      let '(req, err, w1) := on_NewRequest T c method u opt options w in
      let '(a, w2, calls) := run T (k (req, err)) w1 in
      (a, w2, NewRequest_call c method u opt options req err :: calls)
  | CallDo c req t v k =>
      let '(resp, err, v', w1) := on_Do T c req t v w in
      let '(a, w2, calls) := run T (k (resp, err, v')) w1 in
      (a, w2, Do_call c req t v resp err v' :: calls)
  end.

(** A method call [s.m(...)] on the receiver [s] in the world [w]. *)
Definition call {W S A} (T : Transport W) (m : M S A) (s : S) (w : W)
    : A * S * W * list Call :=
  let '(a, s', w', calls) := run T (m s) w in (a, s', w', calls).

Definition returned {W S A} (r : A * S * W * list Call) : A := r.1.1.1.
Definition receiver_after {W S A} (r : A * S * W * list Call) : S := r.1.1.2.
Definition world_after {W S A} (r : A * S * W * list Call) : W := r.1.2.
Definition calls_of {W S A} (r : A * S * W * list Call) : list Call := r.2.

End Calls.

(** ** instance_variables.go: the service and its five methods *)

Module InstanceVariablesService.
Section Methods.
Context `{ClientAPI}.

Record t : Type := { client : Client }.

Definition ListVariables (opt : ptr ListInstanceVariablesOptions)
    (options : list RequestOptionFunc)
    : M t (slice (ptr InstanceVariable) * ptr Response * option error) :=
  let u := "admin/ci/variables" in
  c ← gets client;
  '(req, err) ← NewRequest c http.MethodGet u (list_options opt) options;
  if err is Some e then mret (None, None, Some e) else
  let vs : slice (ptr InstanceVariable) := None in
  c ← gets client;
  '(resp, err, vs) ← Do c req into_InstanceVariables vs;
  if err is Some e then mret (None, resp, Some e) else
  mret (vs, resp, None).

Definition GetVariable (key : string) (options : list RequestOptionFunc)
    : M t (ptr InstanceVariable * ptr Response * option error) :=
  let u := Sprintf_variables (url.PathEscape key) in
  c ← gets client;
  '(req, err) ← NewRequest c http.MethodGet u nil_body options;
  if err is Some e then mret (None, None, Some e) else
  let v := InstanceVariable.zero in
  c ← gets client;
  '(resp, err, v) ← Do c req into_InstanceVariable v;
  if err is Some e then mret (None, resp, Some e) else
  mret (Some v, resp, None).

Definition CreateVariable (opt : ptr CreateInstanceVariableOptions)
    (options : list RequestOptionFunc)
    : M t (ptr InstanceVariable * ptr Response * option error) :=
  let u := "admin/ci/variables" in
  c ← gets client;
  '(req, err) ← NewRequest c http.MethodPost u (create_options opt) options;
  if err is Some e then mret (None, None, Some e) else
  let v := InstanceVariable.zero in
  c ← gets client;
  '(resp, err, v) ← Do c req into_InstanceVariable v;
  if err is Some e then mret (None, resp, Some e) else
  mret (Some v, resp, None).

Definition UpdateVariable (key : string) (opt : ptr UpdateInstanceVariableOptions)
    (options : list RequestOptionFunc)
    : M t (ptr InstanceVariable * ptr Response * option error) :=
  let u := Sprintf_variables (url.PathEscape key) in
  c ← gets client;
  '(req, err) ← NewRequest c http.MethodPut u (update_options opt) options;
  if err is Some e then mret (None, None, Some e) else
  let v := InstanceVariable.zero in
  c ← gets client;
  '(resp, err, v) ← Do c req into_InstanceVariable v;
  if err is Some e then mret (None, resp, Some e) else
  mret (Some v, resp, None).

Definition RemoveVariable (key : string) (options : list RequestOptionFunc)
    : M t (ptr Response * option error) :=
  let u := Sprintf_variables (url.PathEscape key) in
  c ← gets client;
  '(req, err) ← NewRequest c http.MethodDelete u nil_body options;
  if err is Some e then mret (None, Some e) else
  c ← gets client;
  '(resp, err, _) ← Do c req into_nil ();
  mret (resp, err).

End Methods.
End InstanceVariablesService.

(** ** sidekiq_metrics.go: the service and its four methods *)

Module SidekiqService.
Section Methods.
Context `{ClientAPI}.

Record t : Type := { client : Client }.

Definition GetQueueMetrics (options : list RequestOptionFunc)
    : M t (ptr QueueMetrics * ptr Response * option error) :=
  c ← gets client;
  '(req, err) ← NewRequest c http.MethodGet "/sidekiq/queue_metrics" nil_body options;
  if err is Some e then mret (None, None, Some e) else
  let q := QueueMetrics.zero in
  c ← gets client;
  '(resp, err, q) ← Do c req into_QueueMetrics q;
  if err is Some e then mret (None, resp, Some e) else
  mret (Some q, resp, None).

Definition GetProcessMetrics (options : list RequestOptionFunc)
    : M t (ptr ProcessMetrics * ptr Response * option error) :=
  c ← gets client;
  '(req, err) ← NewRequest c http.MethodGet "/sidekiq/process_metrics" nil_body options;
  if err is Some e then mret (None, None, Some e) else
  let p := ProcessMetrics.zero in
  c ← gets client;
  '(resp, err, p) ← Do c req into_ProcessMetrics p;
  if err is Some e then mret (None, resp, Some e) else
  mret (Some p, resp, None).

Definition GetJobStats (options : list RequestOptionFunc)
    : M t (ptr JobStats * ptr Response * option error) :=
  c ← gets client;
  '(req, err) ← NewRequest c http.MethodGet "/sidekiq/job_stats" nil_body options;
  if err is Some e then mret (None, None, Some e) else
  let j := JobStats.zero in
  c ← gets client;
  '(resp, err, j) ← Do c req into_JobStats j;
  if err is Some e then mret (None, resp, Some e) else
  mret (Some j, resp, None).

Definition GetCompoundMetrics (options : list RequestOptionFunc)
    : M t (ptr CompoundMetrics * ptr Response * option error) :=
  c ← gets client;
  '(req, err) ← NewRequest c http.MethodGet "/sidekiq/compound_metrics" nil_body options;
  if err is Some e then mret (None, None, Some e) else
  let cm := CompoundMetrics.zero in
  c ← gets client;
  '(resp, err, cm) ← Do c req into_CompoundMetrics cm;
  if err is Some e then mret (None, resp, Some e) else
  mret (Some cm, resp, None).

End Methods.
End SidekiqService.

(** ** The fields a request body can carry *)

Section Serialized.
Context `{ClientAPI}.

Inductive FieldValue : Type :=
| string_field (s : string)
| bool_field (b : bool)
| variable_type_field (v : VariableTypeValue).

(** A pointer field tagged [`url:"name,omitempty" json:"name,omitempty"`]:
    it is left out when nil and appears under [name] otherwise. *)
Definition omitempty {A} (name : string) (inj : A → FieldValue) (p : ptr A)
    : list (string * FieldValue) :=
  match p with
  | Some a => [(name, inj a)]
  | None => []
  end.

(** The fields of [CreateInstanceVariableOptions], by their tags, in the
    order of the struct. *)
Definition create_fields (o : CreateInstanceVariableOptions)
    : list (string * FieldValue) :=
  omitempty "key" string_field (CreateInstanceVariableOptions.Key o) ++
  omitempty "value" string_field (CreateInstanceVariableOptions.Value o) ++
  omitempty "description" string_field (CreateInstanceVariableOptions.Description o) ++
  omitempty "masked" bool_field (CreateInstanceVariableOptions.Masked o) ++
  omitempty "protected" bool_field (CreateInstanceVariableOptions.Protected o) ++
  omitempty "raw" bool_field (CreateInstanceVariableOptions.Raw o) ++
  omitempty "variable_type" variable_type_field (CreateInstanceVariableOptions.VariableType o).

(** The fields of [UpdateInstanceVariableOptions], likewise. *)
Definition update_fields (o : UpdateInstanceVariableOptions)
    : list (string * FieldValue) :=
  omitempty "value" string_field (UpdateInstanceVariableOptions.Value o) ++
  omitempty "description" string_field (UpdateInstanceVariableOptions.Description o) ++
  omitempty "masked" bool_field (UpdateInstanceVariableOptions.Masked o) ++
  omitempty "protected" bool_field (UpdateInstanceVariableOptions.Protected o) ++
  omitempty "raw" bool_field (UpdateInstanceVariableOptions.Raw o) ++
  omitempty "variable_type" variable_type_field (UpdateInstanceVariableOptions.VariableType o).

(** The fields serialized from what a method passed as [opt]: none for
    nil (the untyped nil, or a nil pointer).  The fields of [ListOptions]
    are declared outside the two files: they are the parameter
    [list_fields]. *)
Definition payload (list_fields : ListOptions → list (string * FieldValue))
    (opt : Body) : list (string * FieldValue) :=
  match opt with
  | nil_body => []
  | list_options o => from_option list_fields [] o
  | create_options o => from_option create_fields [] o
  | update_options o => from_option update_fields [] o
  end.

(** *** Reading a run's calls *)

(** The requests built: the arguments of each [NewRequest] call. *)
Definition requests (calls : list Call)
    : list (Client * string * string * Body * list RequestOptionFunc) :=
  omap (λ c, match c with
             | NewRequest_call c method u opt options _ _ =>
                 Some (c, method, u, opt, options)
             | Do_call _ _ _ _ _ _ _ => None
             end) calls.

(** The requests executed: the request and the target of each [Do] call. *)
Definition executions (calls : list Call) : list (Client * ptr Request * Target) :=
  omap (λ c, match c with
             | NewRequest_call _ _ _ _ _ _ _ => None
             | Do_call c req t _ _ _ _ => Some (c, req, t)
             end) calls.

(** The error a call returned. *)
Definition call_error (c : Call) : option error :=
  match c with
  | NewRequest_call _ _ _ _ _ _ err => err
  | Do_call _ _ _ _ _ err _ => err
  end.

(** The three results of a method that decodes, and the two of one that
    does not. *)
Definition value3 {X} (r : option X * ptr Response * option error) : option X := r.1.1.
Definition response3 {X} (r : option X * ptr Response * option error) : ptr Response := r.1.2.
Definition error3 {X} (r : option X * ptr Response * option error) : option error := r.2.
Definition response2 (r : ptr Response * option error) : ptr Response := r.1.
Definition error2 (r : ptr Response * option error) : option error := r.2.

End Serialized.

(** ** A test double for the shared client

    [Client.NewRequest] and [Client.Do] are declared outside the two files.
    What follows is the transport client of the spec's sections 6 and 7,
    played by a fixture server: a request is a method and a path, a
    response a status code and a JSON document. *)

#[warnings="-register-all"]
Inductive JSON : Type :=
| JNull
| JBool (b : bool)
| JNumber (literal : string)
| JString (s : string)
| JArray (items : list JSON)
| JObject (members : list (string * JSON)).

Module fixture.

Record Request : Type := { Method : string; Path : string }.

Record Response : Type := { StatusCode : Z }.

(** Modelled from the spec: the error taxonomy of section 7, which the
    absent client would define.  [TransportError] carries the status code
    when there is one. *)
Inductive Error : Type :=
| TransportError (status : option Z)
| DecodeError
| NotFound
| Conflict
| ValidationError.

(** A request modifier changes the request being built, or fails. *)
Definition RequestOptionFunc : Type := Request → result Request Error.

(** The server behind the client: its answer to a request. *)
Record Server : Type := { serve : Request → Z * JSON }.

Record ListOptions : Type := { Page : Z; PerPage : Z }.

(** The absent declarations, as this test double has them: a variable
    type is its name, a time its text. *)
#[export] Instance API : ClientAPI :=
  Build_ClientAPI Server Request Response Error RequestOptionFunc ListOptions
    string "" string.

(** *** Building a request *)

Fixpoint apply_options (options : list RequestOptionFunc) (r : Request)
    : result Request Error :=
  match options with
  | [] => Ok r
  | f :: rest =>
      match f r with
      | Ok r' => apply_options rest r'
      | Err e => Err e
      end
  end.

(** Modelled from the spec: [Client.NewRequest], absent from src/.  The
    modifiers are applied in order to the request for [method] and [u];
    the first one to fail fails the construction. *)
Definition NewRequest (c : Server) (method u : string) (opt : Body)
    (options : list RequestOptionFunc) (w : unit)
    : ptr Request * option Error * unit :=
  match apply_options options {| Method := method; Path := u |} with
  | Ok r => (Some r, None, w)
  | Err e => (None, Some e, w)
  end.

(** *** Decoding a response *)

(** Decoding a JSON value into a variable: the variable's new contents,
    and an error when the value did not fit. *)
Definition Decoder (A : Type) : Type := JSON → A → A * option Error.

(** A field of the struct [A]: its [json] tag, and how a value is decoded
    into that field of an [A]. *)
Record Field (A : Type) : Type := { name : string; into : Decoder A }.
Arguments name {A} _.
Arguments into {A} _.

Definition at_field {A B} (get : A → B) (set : B → A → A) (d : Decoder B)
    : Decoder A :=
  λ j a, let '(b, e) := d j (get a) in (set b a, e).

(** The fields of an embedded struct [B] are fields of the struct [A]
    that embeds it. *)
Definition promote {A B} (get : A → B) (set : B → A → A) (fs : list (Field B))
    : list (Field A) :=
  (λ f, {| name := name f; into := at_field get set (into f) |}) <$> fs.

(** Only the first error of a decoding is kept. *)
Definition first_error (e1 e2 : option Error) : option Error :=
  match e1 with
  | Some e => Some e
  | None => e2
  end.

Section Structs.
(** Which member names match a tag besides the tag itself: those with
    the same [fold_name]. *)
Variable fold_name : string → string.

(** The field a member named [key] goes to: the one tagged [key], or
    else the first one whose tag folds to the same name. *)
Definition find_field {A} (fs : list (Field A)) (key : string) : option (Field A) :=
  match List.find (λ f, bool_decide (name f = key)) fs with
  | Some f => Some f
  | None => List.find (λ f, bool_decide (fold_name (name f) = fold_name key)) fs
  end.

Definition decode_member {A} (fs : list (Field A)) (st : A * option Error)
    (m : string * JSON) : A * option Error :=
  match find_field fs m.1 with
  | Some f => let '(a, e) := into f m.2 st.1 in (a, first_error st.2 e)
  | None => st
  end.

(** Modelled from the spec: the decode step of [Client.Do] for a struct
    with the fields [fs].  The members of an object are decoded in
    order, each into the field it names, the others skipped; null
    leaves the struct alone; anything else does not fit. *)
Definition decode_struct {A} (fs : list (Field A)) : Decoder A :=
  λ j a,
    match j with
    | JNull => (a, None)
    | JObject members => foldl (decode_member fs) (a, None) members
    | _ => (a, Some DecodeError)
    end.

Definition decode_string : Decoder string :=
  λ j s,
    match j with
    | JNull => (s, None)
    | JString s' => (s', None)
    | _ => (s, Some DecodeError)
    end.

Definition decode_bool : Decoder bool :=
  λ j b,
    match j with
    | JNull => (b, None)
    | JBool b' => (b', None)
    | _ => (b, Some DecodeError)
    end.

(** A slice: null is the nil slice; the items of an array are decoded
    one by one into fresh elements by [item]. *)
Definition decode_slice {A} (item : JSON → A * option Error) : Decoder (slice A) :=
  λ j old,
    match j with
    | JNull => (None, None)
    | JArray items =>
        let decoded := item <$> items in
        (Some (fst <$> decoded), foldl first_error None (snd <$> decoded))
    | _ => (old, Some DecodeError)
    end.

(** The fields of [InstanceVariable], by their [json] tags. *)
Definition InstanceVariable_fields : list (Field InstanceVariable) :=
  let mk k v t p m r d : InstanceVariable :=
    {| InstanceVariable.Key := k; InstanceVariable.Value := v;
       InstanceVariable.VariableType := t; InstanceVariable.Protected := p;
       InstanceVariable.Masked := m; InstanceVariable.Raw := r;
       InstanceVariable.Description := d |} in
  [ {| name := "key";
       into := at_field InstanceVariable.Key
         (λ x '(InstanceVariable.Build_t _ _ v t p m r d), mk x v t p m r d)
         decode_string |};
    {| name := "value";
       into := at_field InstanceVariable.Value
         (λ x '(InstanceVariable.Build_t _ k _ t p m r d), mk k x t p m r d)
         decode_string |};
    {| name := "variable_type";
       into := at_field InstanceVariable.VariableType
         (λ x '(InstanceVariable.Build_t _ k v _ p m r d), mk k v x p m r d)
         decode_string |};
    {| name := "protected";
       into := at_field InstanceVariable.Protected
         (λ x '(InstanceVariable.Build_t _ k v t _ m r d), mk k v t x m r d)
         decode_bool |};
    {| name := "masked";
       into := at_field InstanceVariable.Masked
         (λ x '(InstanceVariable.Build_t _ k v t p _ r d), mk k v t p x r d)
         decode_bool |};
    {| name := "raw";
       into := at_field InstanceVariable.Raw
         (λ x '(InstanceVariable.Build_t _ k v t p m _ d), mk k v t p m x d)
         decode_bool |};
    {| name := "description";
       into := at_field InstanceVariable.Description
         (λ x '(InstanceVariable.Build_t _ k v t p m r _), mk k v t p m r x)
         decode_string |} ].

(** An element of [[]*InstanceVariable]: null is a nil pointer, any
    other value is decoded into a fresh variable. *)
Definition decode_variable_ptr (j : JSON) : ptr InstanceVariable * option Error :=
  match j with
  | JNull => (None, None)
  | _ => let '(v, e) := decode_struct InstanceVariable_fields j InstanceVariable.zero in
         (Some v, e)
  end.

Definition decode_variables : Decoder (slice (ptr InstanceVariable)) :=
  decode_slice decode_variable_ptr.

End Structs.

(** How the client decodes what the two files leave to it: the folding of
    member names, and the values of the three Sidekiq fields. *)
Record Codec : Type := {
  fold_name : string → string;
  decode_queues : Decoder (ptr (gmap string Queue.t));
  decode_processes : Decoder (slice Process.t);
  decode_jobs : Decoder Jobs.t;
}.

Section Decode.
Variable codec : Codec.

(** The fields of the three snapshots, by their [json] tags. *)
Definition QueueMetrics_fields : list (Field QueueMetrics) :=
  [ {| name := "queues";
       into := at_field QueueMetrics.Queues (λ x _, {| QueueMetrics.Queues := x |})
                 (decode_queues codec) |} ].

Definition ProcessMetrics_fields : list (Field ProcessMetrics) :=
  [ {| name := "processes";
       into := at_field ProcessMetrics.Processes
                 (λ x _, {| ProcessMetrics.Processes := x |})
                 (decode_processes codec) |} ].

Definition JobStats_fields : list (Field JobStats) :=
  [ {| name := "jobs";
       into := at_field JobStats.Jobs (λ x _, {| JobStats.Jobs := x |})
                 (decode_jobs codec) |} ].

(** [CompoundMetrics] has no field of its own: its fields are those of
    the three structs it embeds, in the order of the embedding. *)
Definition CompoundMetrics_fields : list (Field CompoundMetrics) :=
  promote CompoundMetrics.QueueMetrics
    (λ x c, {| CompoundMetrics.QueueMetrics := x;
               CompoundMetrics.ProcessMetrics := CompoundMetrics.ProcessMetrics c;
               CompoundMetrics.JobStats := CompoundMetrics.JobStats c |})
    QueueMetrics_fields ++
  promote CompoundMetrics.ProcessMetrics
    (λ x c, {| CompoundMetrics.QueueMetrics := CompoundMetrics.QueueMetrics c;
               CompoundMetrics.ProcessMetrics := x;
               CompoundMetrics.JobStats := CompoundMetrics.JobStats c |})
    ProcessMetrics_fields ++
  promote CompoundMetrics.JobStats
    (λ x c, {| CompoundMetrics.QueueMetrics := CompoundMetrics.QueueMetrics c;
               CompoundMetrics.ProcessMetrics := CompoundMetrics.ProcessMetrics c;
               CompoundMetrics.JobStats := x |})
    JobStats_fields.

(** Decoding into [v], by what [v] points to. *)
Definition decode (t : Target) : Decoder (cell t) :=
  match t return Decoder (cell t) with
  | into_nil => λ _ v, (v, None)
  | into_InstanceVariables => decode_variables (fold_name codec)
  | into_InstanceVariable => decode_struct (fold_name codec) InstanceVariable_fields
  | into_QueueMetrics => decode_struct (fold_name codec) QueueMetrics_fields
  | into_ProcessMetrics => decode_struct (fold_name codec) ProcessMetrics_fields
  | into_JobStats => decode_struct (fold_name codec) JobStats_fields
  | into_CompoundMetrics => decode_struct (fold_name codec) CompoundMetrics_fields
  end.

(** *** Executing a request *)

(** Modelled from the spec: the status-code mapping of the absent
    client.  A 2xx status is a success, 404 is [NotFound], any other
    status a [TransportError]; the spec leaves open which statuses are
    [Conflict] and [ValidationError]. *)
Definition status_error (status : Z) : option Error :=
  if bool_decide (200 ≤ status < 300)%Z then None
  else if bool_decide (status = 404)%Z then Some NotFound
  else Some (TransportError (Some status)).

(** Modelled from the spec: [Client.Do], absent from src/.  The server
    answers the request; a failure status is returned as its error with
    [v] untouched; the body of a success is decoded into [v]. *)
Definition Do (c : Server) (req : ptr Request) (t : Target) (v : cell t)
    (w : unit) : ptr Response * option Error * cell t * unit :=
  match req with
  | None => (None, Some (TransportError None), v, w)
  | Some r =>
      let '(status, body) := serve c r in
      let resp := Some {| StatusCode := status |} in
      match status_error status with
      | Some e => (resp, Some e, v, w)
      | None => let '(v', e) := decode t body v in (resp, e, v', w)
      end
  end.

Definition transport : Transport unit :=
  {| on_NewRequest := NewRequest; on_Do := Do |}.

End Decode.

(** A server that holds one document per path and answers 404 for every
    other path. *)
Definition fixture_server (docs : gmap string JSON) : Server :=
  {| serve r :=
       match docs !! Path r with
       | Some doc => (200%Z, doc)
       | None => (404%Z, JObject [("message", JString "404 Not Found")])
       end |}.

(** *** A codec, a server and two services to run examples on *)

(** Tags match whatever the case of ASCII letters. *)
Definition upper (c : ascii) : ascii :=
  if url.between "a" "z" c then ascii_of_N (url.byte c - 32) else c.

Fixpoint fold_ascii (s : string) : string :=
  match s with
  | EmptyString => EmptyString
  | String c r => String (upper c) (fold_ascii r)
  end.

Fixpoint digits (acc : Z) (s : string) : option Z :=
  match s with
  | EmptyString => Some acc
  | String c r =>
      if url.between "0" "9" c
      then digits (10 * acc + Z.of_N (url.byte c - url.byte "0")) r
      else None
  end.

(** A decimal integer literal that fits a 64-bit [int]. *)
Definition parse_int (s : string) : option Z :=
  n ← match s with
      | EmptyString => None
      | String "-" EmptyString => None
      | String "-" r => Z.opp <$> digits 0 r
      | _ => digits 0 s
      end;
  if bool_decide (- 2 ^ 63 ≤ n < 2 ^ 63)%Z then Some n else None.

Definition decode_int : Decoder Z :=
  λ j n,
    match j with
    | JNull => (n, None)
    | JNumber literal =>
        match parse_int literal with
        | Some n' => (n', None)
        | None => (n, Some DecodeError)
        end
    | _ => (n, Some DecodeError)
    end.

Definition decode_time : Decoder (ptr string) :=
  λ j old,
    match j with
    | JNull => (None, None)
    | JString s => (Some s, None)
    | _ => (old, Some DecodeError)
    end.

Definition Queue_fields : list (Field Queue.t) :=
  [ {| name := "backlog";
       into := at_field Queue.Backlog
                 (λ x q, {| Queue.Backlog := x; Queue.Latency := Queue.Latency q |})
                 decode_int |};
    {| name := "latency";
       into := at_field Queue.Latency
                 (λ x q, {| Queue.Backlog := Queue.Backlog q; Queue.Latency := x |})
                 decode_int |} ].

(** A map: null is the nil map; each member of an object is decoded into
    a fresh element and stored under its name. *)
Definition sample_decode_queues : Decoder (ptr (gmap string Queue.t)) :=
  λ j old,
    match j with
    | JNull => (None, None)
    | JObject members =>
        let '(m, e) :=
          foldl (λ (st : gmap string Queue.t * option Error) (kv : string * JSON),
                   let '(q, e) := decode_struct fold_ascii Queue_fields kv.2
                                    {| Queue.Backlog := 0; Queue.Latency := 0 |} in
                   (<[kv.1 := q]> st.1, first_error st.2 e))
                (default ∅ old, None) members in
        (Some m, e)
    | _ => (old, Some DecodeError)
    end.

Definition Jobs_fields : list (Field Jobs.t) :=
  [ {| name := "processed";
       into := at_field Jobs.Processed
                 (λ x j, {| Jobs.Processed := x; Jobs.Failed := Jobs.Failed j;
                            Jobs.Enqueued := Jobs.Enqueued j |})
                 decode_int |};
    {| name := "failed";
       into := at_field Jobs.Failed
                 (λ x j, {| Jobs.Processed := Jobs.Processed j; Jobs.Failed := x;
                            Jobs.Enqueued := Jobs.Enqueued j |})
                 decode_int |};
    {| name := "enqueued";
       into := at_field Jobs.Enqueued
                 (λ x j, {| Jobs.Processed := Jobs.Processed j;
                            Jobs.Failed := Jobs.Failed j; Jobs.Enqueued := x |})
                 decode_int |} ].

Definition decode_strings : Decoder (slice string) :=
  decode_slice (λ j, decode_string j "").

Definition Process_fields : list (Field Process.t) :=
  let mk h p t s q l c b : Process.t :=
    {| Process.Hostname := h; Process.Pid := p; Process.Tag := t;
       Process.StartedAt := s; Process.Queues := q; Process.Labels := l;
       Process.Concurrency := c; Process.Busy := b |} in
  [ {| name := "hostname";
       into := at_field Process.Hostname
                 (λ x '(Process.Build_t _ _ p t s q l c b), mk x p t s q l c b)
                 decode_string |};
    {| name := "pid";
       into := at_field Process.Pid
                 (λ x '(Process.Build_t _ h _ t s q l c b), mk h x t s q l c b)
                 decode_int |};
    {| name := "tag";
       into := at_field Process.Tag
                 (λ x '(Process.Build_t _ h p _ s q l c b), mk h p x s q l c b)
                 decode_string |};
    {| name := "started_at";
       into := at_field Process.StartedAt
                 (λ x '(Process.Build_t _ h p t _ q l c b), mk h p t x q l c b)
                 decode_time |};
    {| name := "queues";
       into := at_field Process.Queues
                 (λ x '(Process.Build_t _ h p t s _ l c b), mk h p t s x l c b)
                 decode_strings |};
    {| name := "labels";
       into := at_field Process.Labels
                 (λ x '(Process.Build_t _ h p t s q _ c b), mk h p t s q x c b)
                 decode_strings |};
    {| name := "concurrency";
       into := at_field Process.Concurrency
                 (λ x '(Process.Build_t _ h p t s q l _ b), mk h p t s q l x b)
                 decode_int |};
    {| name := "busy";
       into := at_field Process.Busy
                 (λ x '(Process.Build_t _ h p t s q l c _), mk h p t s q l c x)
                 decode_int |} ].

Definition sample_codec : Codec :=
  {| fold_name := fold_ascii;
     decode_queues := sample_decode_queues;
     decode_processes :=
       decode_slice (λ j, decode_struct fold_ascii Process_fields j
                            {| Process.Hostname := ""; Process.Pid := 0;
                               Process.Tag := ""; Process.StartedAt := None;
                               Process.Queues := None; Process.Labels := None;
                               Process.Concurrency := 0; Process.Busy := 0 |});
     decode_jobs := decode_struct fold_ascii Jobs_fields |}.

Definition sample_metrics : JSON :=
  JObject
    [ ("queues",
       JObject [("default", JObject [("backlog", JNumber "3"); ("latency", JNumber "1")])]);
      ("processes",
       JArray
         [JObject
            [ ("hostname", JString "gitlab.example.com"); ("pid", JNumber "5649");
              ("tag", JString "gitlab");
              ("started_at", JString "2016-06-14T10:45:07.159-05:00");
              ("queues", JArray [JString "post_receive"; JString "mailers"]);
              ("labels", JArray []); ("concurrency", JNumber "25");
              ("busy", JNumber "0") ]]);
      ("jobs",
       JObject [("processed", JNumber "2"); ("failed", JNumber "0");
                ("enqueued", JNumber "1")]) ].

Definition sample_variable : JSON :=
  JObject
    [ ("key", JString "a/b"); ("variable_type", JString "env_var");
      ("value", JString "v"); ("protected", JBool false); ("masked", JBool true);
      ("raw", JBool false); ("description", JNull) ].

Definition sample_server : Server :=
  fixture_server
    (<["/sidekiq/compound_metrics" := sample_metrics]>
     (<["/sidekiq/queue_metrics" := sample_metrics]>
      (<["/sidekiq/process_metrics" := sample_metrics]>
       (<["/sidekiq/job_stats" := sample_metrics]>
        (<["admin/ci/variables/a%2Fb" := sample_variable]>
         (<["admin/ci/variables" := JArray [sample_variable; sample_variable]]> ∅)))))).

Definition sample_variables : InstanceVariablesService.t :=
  {| InstanceVariablesService.client := sample_server |}.

Definition sample_sidekiq : SidekiqService.t :=
  {| SidekiqService.client := sample_server |}.

(** What [sample_metrics] decodes to. *)
Definition sample_snapshot : CompoundMetrics :=
  {| CompoundMetrics.QueueMetrics :=
       {| QueueMetrics.Queues :=
            Some {[ "default" := {| Queue.Backlog := 3; Queue.Latency := 1 |} ]} |};
     CompoundMetrics.ProcessMetrics :=
       {| ProcessMetrics.Processes :=
            Some [ {| Process.Hostname := "gitlab.example.com"; Process.Pid := 5649;
                      Process.Tag := "gitlab";
                      Process.StartedAt := Some "2016-06-14T10:45:07.159-05:00";
                      Process.Queues := Some ["post_receive"; "mailers"];
                      Process.Labels := Some []; Process.Concurrency := 25;
                      Process.Busy := 0 |} ] |};
     CompoundMetrics.JobStats :=
       {| JobStats.Jobs :=
            {| Jobs.Processed := 2; Jobs.Failed := 0; Jobs.Enqueued := 1 |} |} |}.

(** A request modifier that always fails. *)
Definition failing_option : RequestOptionFunc := λ _, Err (TransportError None).

End fixture.

(** ** Every operation of both services, observed the same way *)

Section Operations.
Context `{ClientAPI}.

(** The receiver of an operation. *)
Inductive Service : Type :=
| instance_variables (s : InstanceVariablesService.t)
| sidekiq (s : SidekiqService.t).

(** An operation of one of the two services: the receiver, the method and
    its arguments. *)
Inductive Operation : Type :=
| ListVariables_of (s : InstanceVariablesService.t)
    (opt : ptr ListInstanceVariablesOptions) (options : list RequestOptionFunc)
| GetVariable_of (s : InstanceVariablesService.t)
    (key : string) (options : list RequestOptionFunc)
| CreateVariable_of (s : InstanceVariablesService.t)
    (opt : ptr CreateInstanceVariableOptions) (options : list RequestOptionFunc)
| UpdateVariable_of (s : InstanceVariablesService.t)
    (key : string) (opt : ptr UpdateInstanceVariableOptions)
    (options : list RequestOptionFunc)
| RemoveVariable_of (s : InstanceVariablesService.t)
    (key : string) (options : list RequestOptionFunc)
| GetQueueMetrics_of (s : SidekiqService.t) (options : list RequestOptionFunc)
| GetProcessMetrics_of (s : SidekiqService.t) (options : list RequestOptionFunc)
| GetJobStats_of (s : SidekiqService.t) (options : list RequestOptionFunc)
| GetCompoundMetrics_of (s : SidekiqService.t) (options : list RequestOptionFunc).

Definition receiver_of (op : Operation) : Service :=
  match op with
  | ListVariables_of s _ _ | GetVariable_of s _ _ | CreateVariable_of s _ _
  | UpdateVariable_of s _ _ _ | RemoveVariable_of s _ _ => instance_variables s
  | GetQueueMetrics_of s _ | GetProcessMetrics_of s _ | GetJobStats_of s _
  | GetCompoundMetrics_of s _ => sidekiq s
  end.

(** What a caller and an onlooker see of one call of an operation. *)
Record Observation : Type := {
  (** the decoded result is nil; [RemoveVariable] has no decoded result *)
  decoded_nil : bool;
  response : ptr Response;
  err : option error;
  receiver : Service;
  calls : list Call;
}.

Definition is_nil {X} (x : option X) : bool :=
  match x with
  | None => true
  | Some _ => false
  end.

Definition observe3 {W S X} (inj : S → Service)
    (r : (option X * ptr Response * option error) * S * W * list Call)
    : Observation :=
  {| decoded_nil := is_nil (value3 (returned r));
     response := response3 (returned r);
     err := error3 (returned r);
     receiver := inj (receiver_after r);
     calls := calls_of r |}.

Definition observe2 {W S} (inj : S → Service)
    (r : (ptr Response * option error) * S * W * list Call) : Observation :=
  {| decoded_nil := true;
     response := response2 (returned r);
     err := error2 (returned r);
     receiver := inj (receiver_after r);
     calls := calls_of r |}.

Definition observe {W} (T : Transport W) (op : Operation) (w : W) : Observation :=
  match op with
  | ListVariables_of s opt options =>
      observe3 instance_variables
        (call T (InstanceVariablesService.ListVariables opt options) s w)
  | GetVariable_of s key options =>
      observe3 instance_variables
        (call T (InstanceVariablesService.GetVariable key options) s w)
  | CreateVariable_of s opt options =>
      observe3 instance_variables
        (call T (InstanceVariablesService.CreateVariable opt options) s w)
  | UpdateVariable_of s key opt options =>
      observe3 instance_variables
        (call T (InstanceVariablesService.UpdateVariable key opt options) s w)
  | RemoveVariable_of s key options =>
      observe2 instance_variables
        (call T (InstanceVariablesService.RemoveVariable key options) s w)
  | GetQueueMetrics_of s options =>
      observe3 sidekiq (call T (SidekiqService.GetQueueMetrics options) s w)
  | GetProcessMetrics_of s options =>
      observe3 sidekiq (call T (SidekiqService.GetProcessMetrics options) s w)
  | GetJobStats_of s options =>
      observe3 sidekiq (call T (SidekiqService.GetJobStats options) s w)
  | GetCompoundMetrics_of s options =>
      observe3 sidekiq (call T (SidekiqService.GetCompoundMetrics options) s w)
  end.

(** The response a caller is left with when [c] is the call that failed:
    none from [NewRequest], the one [Do] returned otherwise. *)
Definition response_at (c : Call) : ptr Response :=
  match c with
  | NewRequest_call _ _ _ _ _ _ _ => None
  | Do_call _ _ _ _ resp _ _ => resp
  end.

(** *** One round trip through the client *)

(** [NewRequest], and [Do] on the request it built unless it failed: the
    response, the error and the contents of [*v] at the end, the world
    after, and the calls made. *)
Definition round_trip {W} (T : Transport W) (c : Client) (method u : string)
    (opt : Body) (options : list RequestOptionFunc) (t : Target) (v : cell t)
    (w : W) : (ptr Response * option error * cell t) * W * list Call :=
  let '(req, err, w1) := on_NewRequest T c method u opt options w in
  match err with
  | Some e => ((None, Some e, v), w1, [NewRequest_call c method u opt options req err])
  | None =>
      let '(resp, err', v', w2) := on_Do T c req t v w1 in
      ((resp, err', v'), w2,
       [NewRequest_call c method u opt options req err;
        Do_call c req t v resp err' v'])
  end.

(** What a decoding method returns after a round trip; [wrap] is [Some]
    where the method returns the pointer [v] and the identity where it
    returns the slice it had [Do] fill. *)
Definition finish3 {t X} (wrap : cell t → option X)
    (r : ptr Response * option error * cell t)
    : option X * ptr Response * option error :=
  match r.1.2 with
  | Some e => (None, r.1.1, Some e)
  | None => (wrap r.2, r.1.1, None)
  end.

(** The executions that follow a request: the request [NewRequest] built,
    once, and none when building it failed. *)
Definition executed {W} (T : Transport W) (c : Client) (method u : string)
    (opt : Body) (options : list RequestOptionFunc) (t : Target) (w : W)
    : list (Client * ptr Request * Target) :=
  match on_NewRequest T c method u opt options w with
  | (req, None, _) => [(c, req, t)]
  | (_, Some _, _) => []
  end.

(** The paths and the bodies of the requests built. *)
Definition request_paths (calls : list Call) : list string :=
  (λ r, r.1.1.2) <$> requests calls.

Definition request_bodies (calls : list Call) : list Body :=
  (λ r, r.1.2) <$> requests calls.

End Operations.

(** ** What [Do] is handed, and what a path is made of *)

Section Inputs.
Context `{ClientAPI}.

(** What a fresh variable of each target type holds: the struct
    [new(T)] points to, the nil slice of [var vs []*InstanceVariable],
    and nothing where [v] is nil. *)
Definition zero_of (t : Target) : cell t :=
  match t with
  | into_nil => ()
  | into_InstanceVariables => None
  | into_InstanceVariable => InstanceVariable.zero
  | into_QueueMetrics => QueueMetrics.zero
  | into_ProcessMetrics => ProcessMetrics.zero
  | into_JobStats => JobStats.zero
  | into_CompoundMetrics => CompoundMetrics.zero
  end.

(** The target of each [Do] call with the contents of [*v] going in. *)
Definition do_inputs (calls : list Call) : list {t : Target & cell t} :=
  omap (λ c, match c with
             | NewRequest_call _ _ _ _ _ _ _ => None
             | Do_call _ _ t v _ _ _ => Some (existT t v)
             end) calls.

End Inputs.

(** The bytes an escaped segment is made of: letters, digits, the marks
    [-_.~], the reserved bytes a segment may keep, and ['%']. *)
Definition segment_byte (c : ascii) : bool :=
  url.between "a" "z" c || url.between "A" "Z" c || url.between "0" "9" c ||
  url.is_byte c ["-"; "_"; "."; "~"; "$"; "&"; "+"; ":"; "="; "@"; "%"]%char.

(** The number of ['/'] in a path. *)
Definition slashes (p : string) : nat :=
  length (filter (λ c, c = "/"%char) (String.list_ascii_of_string p)).

(** More sample data: a server that answers every request with null, and
    what [fixture.sample_variable] decodes to. *)
Module samples.
Import fixture.

Definition null_server : Server := {| serve _ := (200%Z, JNull) |}.

Definition decoded_variable : InstanceVariable :=
  {| InstanceVariable.Key := "a/b"; InstanceVariable.Value := "v";
     InstanceVariable.VariableType := "env_var"; InstanceVariable.Protected := false;
     InstanceVariable.Masked := true; InstanceVariable.Raw := false;
     InstanceVariable.Description := "" |}.

Definition update_masked : UpdateInstanceVariableOptions :=
  {| UpdateInstanceVariableOptions.Value := Some "";
     UpdateInstanceVariableOptions.Description := None;
     UpdateInstanceVariableOptions.Masked := Some false;
     UpdateInstanceVariableOptions.Protected := None;
     UpdateInstanceVariableOptions.Raw := None;
     UpdateInstanceVariableOptions.VariableType := None |}.

End samples.

(** ** The request on the wire *)

Section Wire.
Context `{ClientAPI}.

(** An HTTP request as the wire contract describes it: its method, its
    path, its query parameters and its body ([None]: no body). *)
Record WireRequest : Type := {
  wire_method : string;
  wire_path : string;
  wire_query : list (string * FieldValue);
  wire_body : option (list (string * FieldValue));
}.

(** Modelled from the spec: [Client.NewRequest] is absent from src/.  By
    the wire contract of section 6, the fields of [opt] are the body of a
    POST or a PUT and the query parameters of any other request; a nil
    [opt] gives neither a body nor a query. *)
Definition on_the_wire (list_fields : ListOptions → list (string * FieldValue))
    (method u : string) (opt : Body) : WireRequest :=
  match opt with
  | nil_body =>
      {| wire_method := method; wire_path := u; wire_query := []; wire_body := None |}
  | _ =>
      if bool_decide (method = http.MethodPost ∨ method = http.MethodPut)
      then {| wire_method := method; wire_path := u; wire_query := [];
              wire_body := Some (payload list_fields opt) |}
      else {| wire_method := method; wire_path := u;
              wire_query := payload list_fields opt; wire_body := None |}
  end.

(** The requests a run builds, as they read on the wire. *)
Definition wire_requests (list_fields : ListOptions → list (string * FieldValue))
    (calls : list Call) : list WireRequest :=
  (λ '(_, method, u, opt, _), on_the_wire list_fields method u opt) <$> requests calls.

End Wire.

(** * Properties *)

(** ** Percent-encoding of a path segment *)

Example PathEscape_reserved : url.PathEscape "a/b c%d" = "a%2Fb%20c%25d".
Proof. reflexivity. Qed.

Example PathUnescape_reserved : url.PathUnescape "a%2Fb%20c%25d" = Ok "a/b c%d".
Proof. reflexivity. Qed.

Example PathUnescape_truncated : url.PathUnescape "a%2" = Err "%2".
Proof. reflexivity. Qed.

Example PathEscape_kept : url.PathEscape "$&+,/:;=?@-_.~" = "$&+%2C%2F:%3B=%3F@-_.~".
Proof. reflexivity. Qed.

Example last_segment_escaped :
  last_segment (Sprintf_variables (url.PathEscape "a/b")) = "a%2Fb".
Proof. reflexivity. Qed.

Section PathSegment.

(** The two hex digits written for an escaped byte are hex digits, and
    spell that byte. *)
Lemma escaped_byte_decodes c :
  url.shouldEscape c = true →
  url.ishex (url.hexdigit (N.shiftr (url.byte c) 4)) = true ∧
  url.ishex (url.hexdigit (N.land (url.byte c) 15)) = true ∧
  ascii_of_N (N.lor (N.shiftl (url.unhex (url.hexdigit (N.shiftr (url.byte c) 4))) 4)
                    (url.unhex (url.hexdigit (N.land (url.byte c) 15)))) = c.
Proof.
  destruct c as [[] [] [] [] [] [] [] []]; vm_compute; intros; try done.
Qed.

Lemma percent_is_escaped c : url.shouldEscape c = false → c ≠ "%"%char.
Proof. intros Hc ->. vm_compute in Hc. done. Qed.

Lemma slash_is_escaped c : url.shouldEscape c = false → c ≠ "/"%char.
Proof. intros Hc ->. vm_compute in Hc. done. Qed.

Lemma hexdigit_not_slash n : url.hexdigit n ≠ "/"%char.
Proof.
  unfold url.hexdigit.
  destruct (N.to_nat n) as [|[|[|[|[|[|[|[|[|[|[|[|[|[|[|[|k]]]]]]]]]]]]]]]];
    vm_compute; discriminate.
Qed.

Lemma unescape_escape s : url.unescape (url.escape s) = Ok s.
Proof.
  induction s as [|c r IH]; [done|].
  simpl. destruct (url.shouldEscape c) eqn:E.
  - destruct (escaped_byte_decodes c E) as (Ha & Hb & Hc).
    cbn [url.unescape]. rewrite bool_decide_eq_true_2 by done.
    rewrite Ha, Hb. cbn [andb]. rewrite IH. by rewrite Hc.
  - cbn [url.unescape].
    rewrite bool_decide_eq_false_2 by by apply percent_is_escaped.
    by rewrite IH.
Qed.

(** An escaped segment has no ['/'] left in it. *)
Lemma escape_no_slash s : "/"%char ∉ String.list_ascii_of_string (url.escape s).
Proof.
  induction s as [|c r IH]; cbn; [by apply not_elem_of_nil|].
  destruct (url.shouldEscape c) eqn:E; cbn; rewrite !not_elem_of_cons.
  - repeat split; try done; apply not_eq_sym, hexdigit_not_slash.
  - split; [|done]. by apply not_eq_sym, slash_is_escaped.
Qed.

Lemma last_segment_no_slash x :
  "/"%char ∉ String.list_ascii_of_string x → last_segment x = x.
Proof.
  destruct x as [|c r]; [done|]. cbn. rewrite not_elem_of_cons. intros [Hc Hr].
  rewrite bool_decide_eq_false_2 by done.
  by rewrite bool_decide_eq_false_2 by (intros ->; done).
Qed.

Lemma last_segment_after_slash p x :
  "/"%char ∉ String.list_ascii_of_string x →
  last_segment (p +:+ String "/" x) = x.
Proof.
  intros Hx. induction p as [|c r IH].
  - change ("" +:+ String "/" x) with (String "/" x). cbn.
    rewrite bool_decide_eq_false_2 by done. by rewrite bool_decide_eq_true_2.
  - change (String c r +:+ String "/" x) with (String c (r +:+ String "/" x)).
    cbn [last_segment]. rewrite bool_decide_eq_true_2; [done|].
    clear IH. induction r as [|d r IHr].
    + apply list_elem_of_here.
    + change (String d r +:+ String "/" x) with (String d (r +:+ String "/" x)).
      by apply list_elem_of_further.
Qed.

Lemma last_segment_variables x :
  "/"%char ∉ String.list_ascii_of_string x →
  last_segment (Sprintf_variables x) = x.
Proof. apply (last_segment_after_slash "admin/ci/variables"). Qed.

End PathSegment.

(** ** Each method is one round trip *)

Section RoundTrips.
Context `{ClientAPI} {W : Type} (T : Transport W).

Ltac unfold_method :=
  first
    [ progress unfold InstanceVariablesService.ListVariables
    | progress unfold InstanceVariablesService.GetVariable
    | progress unfold InstanceVariablesService.CreateVariable
    | progress unfold InstanceVariablesService.UpdateVariable
    | progress unfold InstanceVariablesService.RemoveVariable
    | progress unfold SidekiqService.GetQueueMetrics
    | progress unfold SidekiqService.GetProcessMetrics
    | progress unfold SidekiqService.GetJobStats
    | progress unfold SidekiqService.GetCompoundMetrics ].

Ltac one_round_trip :=
  intros; unfold call, round_trip, finish3; unfold_method;
  unfold mbind, mret, M_bind, M_ret, gets, NewRequest, Do; cbn;
  repeat match goal with
    | |- context [on_NewRequest ?T ?c ?m ?u ?o ?os ?w] =>
        destruct (on_NewRequest T c m u o os w) as [[? [?|]] ?]; cbn
    | |- context [on_Do ?T ?c ?r ?t ?v ?w] =>
        destruct (on_Do T c r t v w) as [[[? [?|]] ?] ?]; cbn
    end;
  reflexivity.

Lemma ListVariables_round_trip s opt options w :
  call T (InstanceVariablesService.ListVariables opt options) s w =
  let '(r, w', calls) :=
    round_trip T (InstanceVariablesService.client s) http.MethodGet "admin/ci/variables"
      (list_options opt) options into_InstanceVariables None w in
  (finish3 (t := into_InstanceVariables) (X := list (ptr InstanceVariable)) id r,
   s, w', calls).
Proof. one_round_trip. Qed.

Lemma GetVariable_round_trip s key options w :
  call T (InstanceVariablesService.GetVariable key options) s w =
  let '(r, w', calls) :=
    round_trip T (InstanceVariablesService.client s) http.MethodGet
      (Sprintf_variables (url.PathEscape key))
      nil_body options into_InstanceVariable InstanceVariable.zero w in
  (finish3 Some r, s, w', calls).
Proof. one_round_trip. Qed.

Lemma CreateVariable_round_trip s opt options w :
  call T (InstanceVariablesService.CreateVariable opt options) s w =
  let '(r, w', calls) :=
    round_trip T (InstanceVariablesService.client s) http.MethodPost "admin/ci/variables"
      (create_options opt) options into_InstanceVariable InstanceVariable.zero w in
  (finish3 Some r, s, w', calls).
Proof. one_round_trip. Qed.

Lemma UpdateVariable_round_trip s key opt options w :
  call T (InstanceVariablesService.UpdateVariable key opt options) s w =
  let '(r, w', calls) :=
    round_trip T (InstanceVariablesService.client s) http.MethodPut
      (Sprintf_variables (url.PathEscape key))
      (update_options opt) options into_InstanceVariable InstanceVariable.zero w in
  (finish3 Some r, s, w', calls).
Proof. one_round_trip. Qed.

Lemma RemoveVariable_round_trip s key options w :
  call T (InstanceVariablesService.RemoveVariable key options) s w =
  let '(r, w', calls) :=
    round_trip T (InstanceVariablesService.client s) http.MethodDelete
      (Sprintf_variables (url.PathEscape key))
      nil_body options into_nil () w in
  ((r.1.1, r.1.2), s, w', calls).
Proof. one_round_trip. Qed.

Lemma GetQueueMetrics_round_trip s options w :
  call T (SidekiqService.GetQueueMetrics options) s w =
  let '(r, w', calls) :=
    round_trip T (SidekiqService.client s) http.MethodGet "/sidekiq/queue_metrics"
      nil_body options into_QueueMetrics QueueMetrics.zero w in
  (finish3 Some r, s, w', calls).
Proof. one_round_trip. Qed.

Lemma GetProcessMetrics_round_trip s options w :
  call T (SidekiqService.GetProcessMetrics options) s w =
  let '(r, w', calls) :=
    round_trip T (SidekiqService.client s) http.MethodGet "/sidekiq/process_metrics"
      nil_body options into_ProcessMetrics ProcessMetrics.zero w in
  (finish3 Some r, s, w', calls).
Proof. one_round_trip. Qed.

Lemma GetJobStats_round_trip s options w :
  call T (SidekiqService.GetJobStats options) s w =
  let '(r, w', calls) :=
    round_trip T (SidekiqService.client s) http.MethodGet "/sidekiq/job_stats"
      nil_body options into_JobStats JobStats.zero w in
  (finish3 Some r, s, w', calls).
Proof. one_round_trip. Qed.

Lemma GetCompoundMetrics_round_trip s options w :
  call T (SidekiqService.GetCompoundMetrics options) s w =
  let '(r, w', calls) :=
    round_trip T (SidekiqService.client s) http.MethodGet "/sidekiq/compound_metrics"
      nil_body options into_CompoundMetrics CompoundMetrics.zero w in
  (finish3 Some r, s, w', calls).
Proof. one_round_trip. Qed.

End RoundTrips.

(** ** What a round trip does *)

Section RoundTripFacts.
Context `{ClientAPI} {W : Type} (T : Transport W).
Context (c : Client) (method u : string) (opt : Body)
        (options : list RequestOptionFunc) (t : Target) (v : cell t) (w : W).

Ltac cases :=
  unfold round_trip, executed;
  destruct (on_NewRequest T c method u opt options w) as [[req [e1|]] w1]; cbn;
  [|destruct (on_Do T c req t v w1) as [[[resp [e2|]] v'] w2]; cbn].

Lemma round_trip_requests :
  requests (round_trip T c method u opt options t v w).2 =
  [(c, method, u, opt, options)].
Proof. cases; reflexivity. Qed.

Lemma round_trip_executions :
  executions (round_trip T c method u opt options t v w).2 =
  executed T c method u opt options t w.
Proof. cases; reflexivity. Qed.

(** A call that returned an error is the last call made, and its error
    and response are the round trip's. *)
Lemma round_trip_error call e :
  call ∈ (round_trip T c method u opt options t v w).2 →
  call_error call = Some e →
  (round_trip T c method u opt options t v w).1.1.1.2 = Some e ∧
  (round_trip T c method u opt options t v w).1.1.1.1 = response_at call ∧
  last (round_trip T c method u opt options t v w).2 = Some call.
Proof.
  cases; intros Hin He.
  - apply list_elem_of_singleton in Hin as ->. cbn in He. by simplify_eq.
  - apply elem_of_cons in Hin as [->|Hin]; [done|].
    apply list_elem_of_singleton in Hin as ->. cbn in He. by simplify_eq.
  - apply elem_of_cons in Hin as [->|Hin]; [done|].
    apply list_elem_of_singleton in Hin as ->. done.
Qed.

(** An error a round trip ends with was returned by one of its calls. *)
Lemma round_trip_error_cause e :
  (round_trip T c method u opt options t v w).1.1.1.2 = Some e →
  ∃ call, call ∈ (round_trip T c method u opt options t v w).2 ∧
          call_error call = Some e.
Proof.
  cases; intros He; simplify_eq.
  - eexists; split; [apply list_elem_of_here|done].
  - eexists; split; [apply list_elem_of_further, list_elem_of_here|done].
Qed.

(** The requests executed are those the failing call executed: none
    when it is [NewRequest] that failed. *)
Lemma round_trip_issued call e :
  call ∈ (round_trip T c method u opt options t v w).2 →
  call_error call = Some e →
  executions (round_trip T c method u opt options t v w).2 = executions [call].
Proof.
  cases; intros Hin He.
  - by apply list_elem_of_singleton in Hin as ->.
  - apply elem_of_cons in Hin as [->|Hin]; [done|].
    by apply list_elem_of_singleton in Hin as ->.
  - apply elem_of_cons in Hin as [->|Hin]; [done|].
    by apply list_elem_of_singleton in Hin as ->.
Qed.

End RoundTripFacts.

(** ** The requests of the two services *)

Section Requests.
Context `{ClientAPI} {W : Type} (T : Transport W).

(** Reads one fact about a method's round trip off the method's call. *)
Ltac via_round_trip lem :=
  first
    [ rewrite (ListVariables_round_trip T) | rewrite (GetVariable_round_trip T)
    | rewrite (CreateVariable_round_trip T) | rewrite (UpdateVariable_round_trip T)
    | rewrite (RemoveVariable_round_trip T) | rewrite (GetQueueMetrics_round_trip T)
    | rewrite (GetProcessMetrics_round_trip T) | rewrite (GetJobStats_round_trip T)
    | rewrite (GetCompoundMetrics_round_trip T) ];
  match goal with
  | |- context [round_trip T ?c ?m ?u ?o ?os ?t ?v ?w] =>
      let Hr := fresh "Hr" in
      pose proof (lem _ _ T c m u o os t v w) as Hr;
      destruct (round_trip T c m u o os t v w) as [[? ?] ?]; exact Hr
  end.

Lemma instance_variables_requests
    (s : InstanceVariablesService.t) (w : W) (key : string)
    (list_opt : ptr ListInstanceVariablesOptions)
    (create_opt : ptr CreateInstanceVariableOptions)
    (update_opt : ptr UpdateInstanceVariableOptions)
    (options : list RequestOptionFunc) :
  let c := InstanceVariablesService.client s in
  requests (calls_of (call T (InstanceVariablesService.ListVariables list_opt options) s w))
    = [(c, http.MethodGet, "admin/ci/variables", list_options list_opt, options)] ∧
  requests (calls_of (call T (InstanceVariablesService.GetVariable key options) s w))
    = [(c, http.MethodGet, Sprintf_variables (url.PathEscape key), nil_body, options)] ∧
  requests (calls_of (call T (InstanceVariablesService.CreateVariable create_opt options) s w))
    = [(c, http.MethodPost, "admin/ci/variables", create_options create_opt, options)] ∧
  requests (calls_of (call T (InstanceVariablesService.UpdateVariable key update_opt options) s w))
    = [(c, http.MethodPut, Sprintf_variables (url.PathEscape key),
        update_options update_opt, options)] ∧
  requests (calls_of (call T (InstanceVariablesService.RemoveVariable key options) s w))
    = [(c, http.MethodDelete, Sprintf_variables (url.PathEscape key), nil_body, options)].
Proof.
  repeat split; via_round_trip @round_trip_requests.
Qed.

Lemma wire_requests_requests
    (list_fields : ListOptions → list (string * FieldValue)) calls c method u opt options :
  requests calls = [(c, method, u, opt, options)] →
  wire_requests list_fields calls = [on_the_wire list_fields method u opt].
Proof. unfold wire_requests. by intros ->. Qed.

(** C1. Each of the five instance-variable operations builds exactly one
    request, with the method and the path of the wire contract, and sends
    it: [Do] is called once, on the request [NewRequest] returned, with the
    method's own client (nothing is sent when [NewRequest] failed).  On the
    wire, [ListVariables] is a GET of "admin/ci/variables" with the
    pagination options as query parameters and no body; [GetVariable] is a
    GET and [RemoveVariable] a DELETE of "admin/ci/variables/{key}" with
    neither query nor body; [CreateVariable] is a POST of
    "admin/ci/variables" and [UpdateVariable] a PUT of
    "admin/ci/variables/{key}", both with their option fields as the body
    and no query. *)
Theorem instance_variables_wire_contract
    (s : InstanceVariablesService.t) (w : W) (key : string)
    (list_opt : ptr ListInstanceVariablesOptions)
    (create_opt : ptr CreateInstanceVariableOptions)
    (update_opt : ptr UpdateInstanceVariableOptions)
    (options : list RequestOptionFunc)
    (list_fields : ListOptions → list (string * FieldValue)) :
  let c := InstanceVariablesService.client s in
  let u := "admin/ci/variables/" +:+ url.PathEscape key in
  let list := calls_of (call T (InstanceVariablesService.ListVariables list_opt options) s w) in
  let get := calls_of (call T (InstanceVariablesService.GetVariable key options) s w) in
  let create :=
    calls_of (call T (InstanceVariablesService.CreateVariable create_opt options) s w) in
  let update :=
    calls_of (call T (InstanceVariablesService.UpdateVariable key update_opt options) s w) in
  let remove := calls_of (call T (InstanceVariablesService.RemoveVariable key options) s w) in
  (requests list = [(c, "GET", "admin/ci/variables", list_options list_opt, options)] ∧
   executions list
     = executed T c "GET" "admin/ci/variables" (list_options list_opt) options
         into_InstanceVariables w ∧
   wire_requests list_fields list
     = [{| wire_method := "GET"; wire_path := "admin/ci/variables";
           wire_query := from_option list_fields [] list_opt; wire_body := None |}]) ∧
  (requests get = [(c, "GET", u, nil_body, options)] ∧
   executions get = executed T c "GET" u nil_body options into_InstanceVariable w ∧
   wire_requests list_fields get
     = [{| wire_method := "GET"; wire_path := u; wire_query := []; wire_body := None |}]) ∧
  (requests create
     = [(c, "POST", "admin/ci/variables", create_options create_opt, options)] ∧
   executions create
     = executed T c "POST" "admin/ci/variables" (create_options create_opt) options
         into_InstanceVariable w ∧
   wire_requests list_fields create
     = [{| wire_method := "POST"; wire_path := "admin/ci/variables"; wire_query := [];
           wire_body := Some (from_option create_fields [] create_opt) |}]) ∧
  (requests update = [(c, "PUT", u, update_options update_opt, options)] ∧
   executions update
     = executed T c "PUT" u (update_options update_opt) options into_InstanceVariable w ∧
   wire_requests list_fields update
     = [{| wire_method := "PUT"; wire_path := u; wire_query := [];
           wire_body := Some (from_option update_fields [] update_opt) |}]) ∧
  (requests remove = [(c, "DELETE", u, nil_body, options)] ∧
   executions remove = executed T c "DELETE" u nil_body options into_nil w ∧
   wire_requests list_fields remove
     = [{| wire_method := "DELETE"; wire_path := u; wire_query := []; wire_body := None |}]).
Proof.
  destruct (instance_variables_requests s w key list_opt create_opt update_opt options)
    as (Hlist & Hget & Hcreate & Hupdate & Hremove).
  cbv zeta.
  split_and!; try done;
    try (erewrite wire_requests_requests by eassumption; reflexivity);
    via_round_trip @round_trip_executions.
Qed.

(** C7. Each of the four Sidekiq accessors takes nothing but the request
    modifiers and builds exactly one request: a GET of its fixed path,
    with no body, the modifiers handed on as they came.  That request is
    executed once, and nothing else is (nothing at all when building it
    failed). *)
Theorem sidekiq_accessors_single_get
    (s : SidekiqService.t) (w : W) (options : list RequestOptionFunc) :
  let c := SidekiqService.client s in
  (requests (calls_of (call T (SidekiqService.GetQueueMetrics options) s w))
     = [(c, "GET", "/sidekiq/queue_metrics", nil_body, options)] ∧
   executions (calls_of (call T (SidekiqService.GetQueueMetrics options) s w))
     = executed T c "GET" "/sidekiq/queue_metrics" nil_body options into_QueueMetrics w) ∧
  (requests (calls_of (call T (SidekiqService.GetProcessMetrics options) s w))
     = [(c, "GET", "/sidekiq/process_metrics", nil_body, options)] ∧
   executions (calls_of (call T (SidekiqService.GetProcessMetrics options) s w))
     = executed T c "GET" "/sidekiq/process_metrics" nil_body options into_ProcessMetrics w) ∧
  (requests (calls_of (call T (SidekiqService.GetJobStats options) s w))
     = [(c, "GET", "/sidekiq/job_stats", nil_body, options)] ∧
   executions (calls_of (call T (SidekiqService.GetJobStats options) s w))
     = executed T c "GET" "/sidekiq/job_stats" nil_body options into_JobStats w) ∧
  (requests (calls_of (call T (SidekiqService.GetCompoundMetrics options) s w))
     = [(c, "GET", "/sidekiq/compound_metrics", nil_body, options)] ∧
   executions (calls_of (call T (SidekiqService.GetCompoundMetrics options) s w))
     = executed T c "GET" "/sidekiq/compound_metrics" nil_body options
         into_CompoundMetrics w).
Proof.
  repeat split;
    first [ via_round_trip @round_trip_requests | via_round_trip @round_trip_executions ].
Qed.

End Requests.

Section Compound.
Context `{ClientAPI} {W : Type} (T : Transport W).

(** C5. [GetCompoundMetrics] is one round trip through the client and
    nothing more: the one request it builds is a GET of
    "/sidekiq/compound_metrics", that request is the only one executed
    (once; not at all when building it failed), and no request for the
    queue, process or job paths is ever built. *)
Theorem compound_metrics_single_request
    (s : SidekiqService.t) (w : W) (options : list RequestOptionFunc) :
  let c := SidekiqService.client s in
  let r := call T (SidekiqService.GetCompoundMetrics options) s w in
  r = (let '(res, w', calls) :=
         round_trip T c "GET" "/sidekiq/compound_metrics" nil_body options
           into_CompoundMetrics CompoundMetrics.zero w in
       (finish3 Some res, s, w', calls)) ∧
  requests (calls_of r) = [(c, "GET", "/sidekiq/compound_metrics", nil_body, options)] ∧
  executions (calls_of r)
    = executed T c "GET" "/sidekiq/compound_metrics" nil_body options
        into_CompoundMetrics w ∧
  (length (executions (calls_of r)) ≤ 1)%nat ∧
  request_paths (calls_of r) = ["/sidekiq/compound_metrics"] ∧
  ("/sidekiq/queue_metrics" ∉ request_paths (calls_of r)) ∧
  ("/sidekiq/process_metrics" ∉ request_paths (calls_of r)) ∧
  ("/sidekiq/job_stats" ∉ request_paths (calls_of r)).
Proof.
  intros c r.
  assert (Hreq : requests (calls_of r)
                 = [(c, "GET", "/sidekiq/compound_metrics", nil_body, options)]).
  { subst r c. rewrite (GetCompoundMetrics_round_trip T).
    pose proof (round_trip_requests T (SidekiqService.client s) "GET"
                  "/sidekiq/compound_metrics" nil_body options
                  into_CompoundMetrics CompoundMetrics.zero w) as Hr.
    by destruct (round_trip _ _ _ _ _ _ _ _ _) as [[? ?] ?]. }
  assert (Hexe : executions (calls_of r)
                 = executed T c "GET" "/sidekiq/compound_metrics" nil_body options
                     into_CompoundMetrics w).
  { subst r c. rewrite (GetCompoundMetrics_round_trip T).
    pose proof (round_trip_executions T (SidekiqService.client s) "GET"
                  "/sidekiq/compound_metrics" nil_body options
                  into_CompoundMetrics CompoundMetrics.zero w) as Hr.
    by destruct (round_trip _ _ _ _ _ _ _ _ _) as [[? ?] ?]. }
  split; [apply (GetCompoundMetrics_round_trip T)|].
  split; [done|]. split; [done|].
  split.
  { rewrite Hexe. unfold executed.
    destruct (on_NewRequest _ _ _ _ _ _ _) as [[? [?|]] ?]; cbn; lia. }
  unfold request_paths. rewrite Hreq. cbn.
  repeat split; try done; rewrite list_elem_of_singleton; discriminate.
Qed.

End Compound.

(** ** The key in the path and in the body *)

Section Keys.
Context `{ClientAPI} {W : Type} (T : Transport W).

Lemma request_paths_requests calls c method u opt options :
  requests calls = [(c, method, u, opt, options)] → request_paths calls = [u].
Proof. unfold request_paths. by intros ->. Qed.

Lemma request_bodies_requests calls c method u opt options :
  requests calls = [(c, method, u, opt, options)] → request_bodies calls = [opt].
Proof. unfold request_bodies. by intros ->. Qed.

(** C2. For every key, the one request path that [GetVariable],
    [UpdateVariable] and [RemoveVariable] build ends in the escaped key
    as its last segment, and unescaping that segment gives the key
    back. *)
Theorem key_segment_roundtrip
    (s : InstanceVariablesService.t) (w : W) (key : string)
    (update_opt : ptr UpdateInstanceVariableOptions)
    (options : list RequestOptionFunc) :
  ∃ u : string,
    request_paths (calls_of (call T (InstanceVariablesService.GetVariable key options) s w))
      = [u] ∧
    request_paths
      (calls_of (call T (InstanceVariablesService.UpdateVariable key update_opt options) s w))
      = [u] ∧
    request_paths (calls_of (call T (InstanceVariablesService.RemoveVariable key options) s w))
      = [u] ∧
    u = "admin/ci/variables/" +:+ url.PathEscape key ∧
    last_segment u = url.PathEscape key ∧
    url.PathUnescape (last_segment u) = Ok key.
Proof.
  destruct (instance_variables_requests T s w key None None update_opt options)
    as (_ & Hget & _ & Hupd & Hdel).
  exists (Sprintf_variables (url.PathEscape key)).
  split; [by eapply request_paths_requests|].
  split; [by eapply request_paths_requests|].
  split; [by eapply request_paths_requests|].
  split; [done|].
  rewrite last_segment_variables by apply escape_no_slash.
  split; [done|]. apply unescape_escape.
Qed.

(** The fields of an update are among these six. *)
Lemma update_fields_names (o : UpdateInstanceVariableOptions) f :
  f ∈ update_fields o →
  f.1 ∈ ["value"; "description"; "masked"; "protected"; "raw"; "variable_type"].
Proof.
  unfold update_fields, omitempty.
  destruct o as [[?|] [?|] [?|] [?|] [?|] [?|]]; cbn;
    rewrite ?elem_of_cons, ?elem_of_nil; intros Hf;
    repeat (destruct Hf as [->|Hf]); try done; cbn;
    rewrite ?elem_of_cons; tauto.
Qed.

(** C3. For every key and every set of update options, the body that
    [UpdateVariable] hands to the one request it builds serializes to
    fields named value, description, masked, protected, raw or
    variable_type only: none is named key. *)
Theorem update_body_has_no_key
    (s : InstanceVariablesService.t) (w : W) (key : string)
    (opt : ptr UpdateInstanceVariableOptions) (options : list RequestOptionFunc)
    (list_fields : ListOptions → list (string * FieldValue)) :
  request_bodies
    (calls_of (call T (InstanceVariablesService.UpdateVariable key opt options) s w))
    = [update_options opt] ∧
  Forall (λ f, f.1 ∈ ["value"; "description"; "masked"; "protected"; "raw";
                      "variable_type"] ∧ f.1 ≠ "key")
    (payload list_fields (update_options opt)).
Proof.
  split.
  - destruct (instance_variables_requests T s w key None None opt options)
      as (_ & _ & _ & Hupd & _).
    by eapply request_bodies_requests.
  - apply Forall_forall. intros f Hf. cbn in Hf.
    destruct opt as [o|]; cbn in Hf; [|by apply elem_of_nil in Hf].
    pose proof (update_fields_names o f Hf) as Hn. split; [done|].
    intros Hk. rewrite Hk in Hn.
    rewrite !elem_of_cons, elem_of_nil in Hn. intuition discriminate.
Qed.

End Keys.

(** ** Every operation: receiver, errors and responses *)

Section Everywhere.
Context `{ClientAPI} {W : Type} (T : Transport W).

(** Seen from outside, each of the nine operations is a round trip: it
    makes the round trip's calls, returns its response and its error,
    returns no decoded result when that error is not nil, and leaves the
    receiver as it was. *)
Lemma observe_round_trip (op : Operation) (w : W) :
  ∃ c method u opt options t (v : cell t),
    let rt := round_trip T c method u opt options t v w in
    calls (observe T op w) = rt.2 ∧
    err (observe T op w) = rt.1.1.1.2 ∧
    response (observe T op w) = rt.1.1.1.1 ∧
    receiver (observe T op w) = receiver_of op ∧
    (is_Some rt.1.1.1.2 → decoded_nil (observe T op w) = true).
Proof.
  destruct op; cbn [observe];
    [ rewrite (ListVariables_round_trip T) | rewrite (GetVariable_round_trip T)
    | rewrite (CreateVariable_round_trip T) | rewrite (UpdateVariable_round_trip T)
    | rewrite (RemoveVariable_round_trip T) | rewrite (GetQueueMetrics_round_trip T)
    | rewrite (GetProcessMetrics_round_trip T) | rewrite (GetJobStats_round_trip T)
    | rewrite (GetCompoundMetrics_round_trip T) ];
    match goal with
    | |- context [round_trip T ?c ?m ?u ?o ?os ?t ?v ?w] =>
        exists c, m, u, o, os, t, v;
        destruct (round_trip T c m u o os t v w) as [[[[resp [e|]] v'] w'] cs]
    end;
    cbn; repeat split; try done; by intros [? ?].
Qed.

(** C9. Every operation of both services leaves its receiver as it found
    it, whatever the transport answers: the methods read the receiver's
    [client] field and assign to nothing. *)
Theorem receiver_unchanged (op : Operation) (w : W) :
  receiver (observe T op w) = receiver_of op.
Proof.
  by destruct (observe_round_trip op w) as (c & m & u & o & os & t & v & _ & _ & _ & Hr & _).
Qed.

(** C4. For every operation of both services: when a call it makes,
    [NewRequest] or [Do], returns an error [e], the operation returns
    that very [e] and no decoded result, and that call is the last one
    it makes (nothing is retried, nothing put in the error's place). *)
Theorem error_returned_verbatim (op : Operation) (w : W) (call : Call) (e : error) :
  call ∈ calls (observe T op w) →
  call_error call = Some e →
  err (observe T op w) = Some e ∧
  decoded_nil (observe T op w) = true ∧
  last (calls (observe T op w)) = Some call.
Proof.
  destruct (observe_round_trip op w)
    as (c & m & u & o & os & t & v & Hc & He & _ & _ & Hnil).
  cbn zeta in *. rewrite Hc, He. intros Hin Herr.
  destruct (round_trip_error T c m u o os t v w call e Hin Herr) as (Hre & _ & Hlast).
  rewrite Hre in Hnil. split; [done|]. split; [|done]. by apply Hnil.
Qed.

(** X14. Conversely, an error an operation returns is one some call of
    it returned, and it comes with no decoded result: no operation
    makes an error of its own. *)
Lemma error_has_cause (op : Operation) (w : W) (e : error) :
  err (observe T op w) = Some e →
  decoded_nil (observe T op w) = true ∧
  ∃ call, call ∈ calls (observe T op w) ∧ call_error call = Some e.
Proof.
  destruct (observe_round_trip op w)
    as (c & m & u & o & os & t & v & Hc & He & _ & _ & Hnil).
  cbn zeta in *. rewrite Hc, He. intros Herr. split.
  - apply Hnil. by rewrite Herr.
  - by apply round_trip_error_cause.
Qed.

(** C10. For every operation, the response returned next to an error
    tells the failing stage.  When [NewRequest] failed, the response is
    nil and no request was executed; when [Do] failed, the response is
    the one [Do] returned, and the decoded result is nil. *)
Theorem response_tells_failing_stage (op : Operation) (w : W) (e : error) :
  (∀ c method u opt options req,
     NewRequest_call c method u opt options req (Some e) ∈ calls (observe T op w) →
     response (observe T op w) = None ∧
     err (observe T op w) = Some e ∧
     executions (calls (observe T op w)) = []) ∧
  (∀ c req t v resp v',
     Do_call c req t v resp (Some e) v' ∈ calls (observe T op w) →
     response (observe T op w) = resp ∧
     err (observe T op w) = Some e ∧
     decoded_nil (observe T op w) = true).
Proof.
  destruct (observe_round_trip op w)
    as (c & m & u & o & os & t & v & Hc & He & Hresp & _ & Hnil).
  cbn zeta in *. rewrite Hc, He, Hresp. split.
  - intros c' m' u' o' os' req Hin.
    destruct (round_trip_error T c m u o os t v w _ e Hin eq_refl) as (Hre & Hrr & _).
    rewrite (round_trip_issued T c m u o os t v w _ e Hin eq_refl). done.
  - intros c' req t' v0 resp v' Hin.
    destruct (round_trip_error T c m u o os t v w _ e Hin eq_refl) as (Hre & Hrr & _).
    rewrite Hre in Hnil. repeat split; try done. by apply Hnil.
Qed.

End Everywhere.

(** ** Against the test double *)

Section Fixture.
Import fixture.
Variable codec : Codec.

(** Decoding a struct goes through the members of an object from the
    left. *)
Lemma decode_struct_object {A} (fs : list (Field A)) members a :
  decode_struct (fold_name codec) fs (JObject members) a
  = foldl (decode_member (fold_name codec) fs) (a, None) members.
Proof. reflexivity. Qed.

(** A round trip against the test double, when the modifiers let the
    request through: the server's answer, mapped to an error or decoded. *)
Lemma fixture_round_trip server method u opt options t (v : cell t) r status doc :
  apply_options options {| Method := method; Path := u |} = Ok r →
  serve server r = (status, doc) →
  (round_trip (transport codec) server method u opt options t v ()).1.1 =
    match status_error status with
    | Some e => (Some {| StatusCode := status |}, Some e, v)
    | None => (Some {| StatusCode := status |},
               (decode codec t doc v).2, (decode codec t doc v).1)
    end.
Proof.
  intros Hr Hs. unfold round_trip. cbn. unfold NewRequest. rewrite Hr. cbn.
  rewrite Hs. destruct (status_error status); [done|].
  by destruct (decode codec t doc v).
Qed.

Lemma returned_round_trip {S X Y}
    (rt : X * unit * list Call) (f : X → Y) (s : S) :
  returned (let '(r, w', calls) := rt in (f r, s, w', calls)) = f rt.1.1.
Proof. by destruct rt as [[? ?] ?]. Qed.

Lemma status_error_success status : (200 ≤ status < 300)%Z → status_error status = None.
Proof. intros Hs. unfold status_error. by rewrite bool_decide_eq_true_2. Qed.

(** What a decoding method returns for a success status. *)
Lemma finish3_success {t X} (wrap : cell t → option X) status doc (v : cell t) :
  (200 ≤ status < 300)%Z →
  finish3 wrap
    match status_error status with
    | Some e => (Some {| StatusCode := status |}, Some e, v)
    | None => (Some {| StatusCode := status |},
               (decode codec t doc v).2, (decode codec t doc v).1)
    end
  = match (decode codec t doc v).2 with
    | Some e => (None, Some {| StatusCode := status |}, Some e)
    | None => (wrap (decode codec t doc v).1, Some {| StatusCode := status |}, None)
    end.
Proof. intros Hs. by rewrite status_error_success. Qed.

(** *** The fields of [CompoundMetrics] are those of the three snapshots *)

Section Union.
Hypothesis queues_processes :
  fold_name codec "queues" ≠ fold_name codec "processes".
Hypothesis queues_jobs : fold_name codec "queues" ≠ fold_name codec "jobs".
Hypothesis processes_jobs : fold_name codec "processes" ≠ fold_name codec "jobs".

(** One member of a document changes the three parts of a
    [CompoundMetrics] as it changes the three snapshots taken alone,
    and passes on an error exactly when one of them does. *)
Lemma decode_member_union (c : CompoundMetrics) e eq ep ej (m : string * JSON) :
  let c' := decode_member (fold_name codec) (CompoundMetrics_fields codec) (c, e) m in
  let q' := decode_member (fold_name codec) (QueueMetrics_fields codec)
              (CompoundMetrics.QueueMetrics c, eq) m in
  let p' := decode_member (fold_name codec) (ProcessMetrics_fields codec)
              (CompoundMetrics.ProcessMetrics c, ep) m in
  let j' := decode_member (fold_name codec) (JobStats_fields codec)
              (CompoundMetrics.JobStats c, ej) m in
  CompoundMetrics.QueueMetrics c'.1 = q'.1 ∧
  CompoundMetrics.ProcessMetrics c'.1 = p'.1 ∧
  CompoundMetrics.JobStats c'.1 = j'.1 ∧
  ((e = None → eq = None ∧ ep = None ∧ ej = None) →
   c'.2 = None → q'.2 = None ∧ p'.2 = None ∧ j'.2 = None).
Proof.
  destruct m as [k j]. destruct c as [[q] [p] [js]].
  unfold decode_member, find_field. cbn.
  repeat case_bool_decide; simplify_eq; try congruence; unfold at_field; cbn;
    repeat match goal with
      | |- context [decode_queues codec ?j ?q] => destruct (decode_queues codec j q) as [? [?|]]
      | |- context [decode_processes codec ?j ?q] =>
          destruct (decode_processes codec j q) as [? [?|]]
      | |- context [decode_jobs codec ?j ?q] => destruct (decode_jobs codec j q) as [? [?|]]
      end; cbn;
    split_and!; try done;
    intros Hinit He; destruct e; cbn in He; try done;
    destruct (Hinit eq_refl) as (-> & -> & ->); done.
Qed.

Lemma decode_members_union members (c : CompoundMetrics) e eq ep ej :
  let c' := foldl (decode_member (fold_name codec) (CompoundMetrics_fields codec))
              (c, e) members in
  let q' := foldl (decode_member (fold_name codec) (QueueMetrics_fields codec))
              (CompoundMetrics.QueueMetrics c, eq) members in
  let p' := foldl (decode_member (fold_name codec) (ProcessMetrics_fields codec))
              (CompoundMetrics.ProcessMetrics c, ep) members in
  let j' := foldl (decode_member (fold_name codec) (JobStats_fields codec))
              (CompoundMetrics.JobStats c, ej) members in
  (e = None → eq = None ∧ ep = None ∧ ej = None) →
  CompoundMetrics.QueueMetrics c'.1 = q'.1 ∧
  CompoundMetrics.ProcessMetrics c'.1 = p'.1 ∧
  CompoundMetrics.JobStats c'.1 = j'.1 ∧
  (c'.2 = None → q'.2 = None ∧ p'.2 = None ∧ j'.2 = None).
Proof.
  revert c e eq ep ej.
  induction members as [|m members IH]; intros c e eq ep ej; cbn zeta; intros Hinit.
  { cbn [foldl fst snd]. split_and!; try done; by apply Hinit. }
  cbn [foldl].
  destruct (decode_member_union c e eq ep ej m) as (Hq & Hp & Hj & He).
  cbn zeta in *.
  destruct (decode_member _ (CompoundMetrics_fields codec) (c, e) m) as [c1 e1].
  destruct (decode_member _ (QueueMetrics_fields codec) _ m) as [q1 eq1].
  destruct (decode_member _ (ProcessMetrics_fields codec) _ m) as [p1 ep1].
  destruct (decode_member _ (JobStats_fields codec) _ m) as [j1 ej1].
  cbn [fst snd] in *. subst q1 p1 j1. apply (IH c1 e1 eq1 ep1 ej1). by apply He.
Qed.

(** A document that decodes into a [CompoundMetrics] without error
    decodes into each snapshot without error, to the matching part. *)
Lemma decode_union (doc : JSON) (cm : CompoundMetrics) :
  decode codec into_CompoundMetrics doc CompoundMetrics.zero = (cm, None) →
  decode codec into_QueueMetrics doc QueueMetrics.zero
    = (CompoundMetrics.QueueMetrics cm, None) ∧
  decode codec into_ProcessMetrics doc ProcessMetrics.zero
    = (CompoundMetrics.ProcessMetrics cm, None) ∧
  decode codec into_JobStats doc JobStats.zero
    = (CompoundMetrics.JobStats cm, None).
Proof.
  destruct doc as [| | | | |members]; cbn [decode decode_struct];
    intros Hd; simplify_eq; try done.
  pose proof (decode_members_union members CompoundMetrics.zero None None None None)
    as Hu. cbn zeta in Hu.
  destruct Hu as (Hq & Hp & Hj & He); [done|].
  rewrite Hd in Hq, Hp, Hj, He. cbn [fst snd] in *.
  destruct (He eq_refl) as (Heq & Hep & Hej).
  split_and!; apply injective_projections; done.
Qed.

(** C6. A [CompoundMetrics] is its three embedded snapshots and nothing
    else, and decodes as they do: when the server answers the four
    accessors with the same document and [GetCompoundMetrics] returns
    [cm], then [GetQueueMetrics], [GetProcessMetrics] and [GetJobStats]
    return exactly the queue, process and job parts of [cm]. *)
Theorem compound_metrics_is_union
    (server : Server) (status : Z) (doc : JSON) (cm : CompoundMetrics) :
  (200 ≤ status < 300)%Z →
  Forall (λ path, serve server {| Method := "GET"; Path := path |} = (status, doc))
    ["/sidekiq/queue_metrics"; "/sidekiq/process_metrics"; "/sidekiq/job_stats";
     "/sidekiq/compound_metrics"] →
  let s := {| SidekiqService.client := server |} in
  value3 (returned (call (transport codec) (SidekiqService.GetCompoundMetrics []) s ()))
    = Some cm →
  returned (call (transport codec) (SidekiqService.GetQueueMetrics []) s ())
    = (Some (CompoundMetrics.QueueMetrics cm), Some {| StatusCode := status |}, None) ∧
  returned (call (transport codec) (SidekiqService.GetProcessMetrics []) s ())
    = (Some (CompoundMetrics.ProcessMetrics cm), Some {| StatusCode := status |}, None) ∧
  returned (call (transport codec) (SidekiqService.GetJobStats []) s ())
    = (Some (CompoundMetrics.JobStats cm), Some {| StatusCode := status |}, None) ∧
  (∀ c : CompoundMetrics,
     CompoundMetrics.QueueMetrics c = CompoundMetrics.QueueMetrics cm →
     CompoundMetrics.ProcessMetrics c = CompoundMetrics.ProcessMetrics cm →
     CompoundMetrics.JobStats c = CompoundMetrics.JobStats cm →
     c = cm).
Proof.
  intros Hstatus Hserve s.
  rewrite !Forall_cons in Hserve. destruct Hserve as (Hq & Hp & Hj & Hc & _).
  rewrite (GetCompoundMetrics_round_trip (transport codec)),
    (GetQueueMetrics_round_trip (transport codec)),
    (GetProcessMetrics_round_trip (transport codec)),
    (GetJobStats_round_trip (transport codec)).
  rewrite !returned_round_trip. cbn [SidekiqService.client s].
  rewrite (fixture_round_trip _ "GET" "/sidekiq/compound_metrics" _ [] _ _ _ _ _ eq_refl Hc),
    (fixture_round_trip _ "GET" "/sidekiq/queue_metrics" _ [] _ _ _ _ _ eq_refl Hq),
    (fixture_round_trip _ "GET" "/sidekiq/process_metrics" _ [] _ _ _ _ _ eq_refl Hp),
    (fixture_round_trip _ "GET" "/sidekiq/job_stats" _ [] _ _ _ _ _ eq_refl Hj).
  rewrite !finish3_success by done.
  destruct (decode codec into_CompoundMetrics doc CompoundMetrics.zero)
    as [cm' [e|]] eqn:Hd; cbn [fst snd value3]; [done|].
  intros [= ->].
  destruct (decode_union doc cm Hd) as (-> & -> & ->). cbn [fst snd].
  split_and!; try done.
  intros [q p j] Hq' Hp' Hj'. destruct cm. cbn in *. by subst.
Qed.

End Union.

(** C8. When the server answers 404 to the request for a key (no variable
    has it), [GetVariable] returns [NotFound], which is neither a
    [TransportError] nor a [DecodeError], next to the 404 response and no
    variable. *)
Theorem missing_variable_is_NotFound
    (server : Server) (key : string) (options : list RequestOptionFunc) (r : Request) :
  apply_options options
    {| Method := "GET"; Path := "admin/ci/variables/" +:+ url.PathEscape key |} = Ok r →
  (serve server r).1 = 404%Z →
  returned (call (transport codec) (InstanceVariablesService.GetVariable key options)
              {| InstanceVariablesService.client := server |} ())
    = (None, Some {| StatusCode := 404 |}, Some NotFound) ∧
  (∀ status, NotFound ≠ TransportError status) ∧
  NotFound ≠ DecodeError.
Proof.
  intros Hr Hs. split; [|done].
  rewrite (GetVariable_round_trip (transport codec)), returned_round_trip.
  cbn [InstanceVariablesService.client].
  destruct (serve server r) as [status doc] eqn:Hserve. cbn in Hs. subst status.
  by rewrite (fixture_round_trip _ _ _ _ _ _ _ _ _ _ Hr Hserve).
Qed.

End Fixture.

(** ** The theorems at work on the sample server *)

Section Samples.
Import fixture.

Example sample_compound_metrics :
  value3 (returned (call (transport sample_codec) (SidekiqService.GetCompoundMetrics [])
                      sample_sidekiq ()))
  = Some sample_snapshot.
Proof. vm_compute. reflexivity. Qed.

Example sample_list_variables :
  length <$> value3 (returned (call (transport sample_codec)
                                 (InstanceVariablesService.ListVariables None [])
                                 sample_variables ()))
  = Some 2%nat.
Proof. vm_compute. reflexivity. Qed.

Example sample_get_variable :
  InstanceVariable.Key <$>
    value3 (returned (call (transport sample_codec)
                        (InstanceVariablesService.GetVariable "a/b" [])
                        sample_variables ()))
  = Some "a/b".
Proof. vm_compute. reflexivity. Qed.

(** A create body may carry the key; an update body cannot name one. *)
Example create_body_has_key :
  payload (λ _, [])
    (create_options
       (Some {| CreateInstanceVariableOptions.Key := Some "K";
                CreateInstanceVariableOptions.Value := Some "v";
                CreateInstanceVariableOptions.Description := None;
                CreateInstanceVariableOptions.Masked := Some true;
                CreateInstanceVariableOptions.Protected := None;
                CreateInstanceVariableOptions.Raw := None;
                CreateInstanceVariableOptions.VariableType := None |}))
  = [("key", string_field "K"); ("value", string_field "v"); ("masked", bool_field true)].
Proof. reflexivity. Qed.

(** [GetVariable] for a key the sample server does not hold: the 404 comes
    back from [Do] as [NotFound], which is the error returned, with no
    variable, and [Do] is the last call. *)
Lemma error_returned_verbatim_witness :
  let op := GetVariable_of sample_variables "missing" [] in
  let failed :=
    Do_call sample_server
      (Some {| Method := "GET"; Path := "admin/ci/variables/missing" |})
      into_InstanceVariable InstanceVariable.zero
      (Some {| StatusCode := 404 |}) (Some NotFound) InstanceVariable.zero in
  failed ∈ calls (observe (transport sample_codec) op ()) ∧
  call_error failed = Some NotFound ∧
  err (observe (transport sample_codec) op ()) = Some NotFound ∧
  decoded_nil (observe (transport sample_codec) op ()) = true ∧
  last (calls (observe (transport sample_codec) op ())) = Some failed.
Proof.
  intros op failed.
  assert (Hin : failed ∈ calls (observe (transport sample_codec) op ())).
  { apply list_elem_of_further, list_elem_of_here. }
  split; [exact Hin|]. split; [reflexivity|].
  exact (error_returned_verbatim (transport sample_codec) op () failed NotFound
           Hin eq_refl).
Defined.

(** A modifier that fails stops [RemoveVariable] before anything is
    executed; a 404 from the server reaches the caller with its
    response. *)
Lemma response_tells_failing_stage_witness :
  let stopped := RemoveVariable_of sample_variables "a/b" [failing_option] in
  let refused := GetVariable_of sample_variables "missing" [] in
  (response (observe (transport sample_codec) stopped ()) = None ∧
   err (observe (transport sample_codec) stopped ()) = Some (TransportError None) ∧
   executions (calls (observe (transport sample_codec) stopped ())) = []) ∧
  (response (observe (transport sample_codec) refused ()) = Some {| StatusCode := 404 |} ∧
   err (observe (transport sample_codec) refused ()) = Some NotFound ∧
   decoded_nil (observe (transport sample_codec) refused ()) = true).
Proof.
  intros stopped refused. split.
  - refine (proj1 (response_tells_failing_stage (transport sample_codec) stopped ()
                     (TransportError None))
              sample_server "DELETE" "admin/ci/variables/a%2Fb" nil_body
              [failing_option] None _).
    apply list_elem_of_here.
  - refine (proj2 (response_tells_failing_stage (transport sample_codec) refused ()
                     NotFound)
              sample_server
              (Some {| Method := "GET"; Path := "admin/ci/variables/missing" |})
              into_InstanceVariable InstanceVariable.zero
              (Some {| StatusCode := 404 |}) InstanceVariable.zero _).
    apply list_elem_of_further, list_elem_of_here.
Defined.

(** The sample server answers the four accessors with [sample_metrics]:
    the three single accessors return the parts of the compound
    snapshot. *)
Lemma compound_metrics_is_union_witness :
  (fold_name sample_codec "queues" ≠ fold_name sample_codec "processes" ∧
   fold_name sample_codec "queues" ≠ fold_name sample_codec "jobs" ∧
   fold_name sample_codec "processes" ≠ fold_name sample_codec "jobs") ∧
  (200 ≤ 200 < 300)%Z ∧
  Forall (λ path, serve sample_server {| Method := "GET"; Path := path |}
                  = (200%Z, sample_metrics))
    ["/sidekiq/queue_metrics"; "/sidekiq/process_metrics"; "/sidekiq/job_stats";
     "/sidekiq/compound_metrics"] ∧
  value3 (returned (call (transport sample_codec) (SidekiqService.GetCompoundMetrics [])
                      sample_sidekiq ()))
    = Some sample_snapshot ∧
  returned (call (transport sample_codec) (SidekiqService.GetQueueMetrics [])
              sample_sidekiq ())
    = (Some (CompoundMetrics.QueueMetrics sample_snapshot),
       Some {| StatusCode := 200 |}, None) ∧
  returned (call (transport sample_codec) (SidekiqService.GetProcessMetrics [])
              sample_sidekiq ())
    = (Some (CompoundMetrics.ProcessMetrics sample_snapshot),
       Some {| StatusCode := 200 |}, None) ∧
  returned (call (transport sample_codec) (SidekiqService.GetJobStats [])
              sample_sidekiq ())
    = (Some (CompoundMetrics.JobStats sample_snapshot),
       Some {| StatusCode := 200 |}, None) ∧
  (∀ c : CompoundMetrics,
     CompoundMetrics.QueueMetrics c = CompoundMetrics.QueueMetrics sample_snapshot →
     CompoundMetrics.ProcessMetrics c = CompoundMetrics.ProcessMetrics sample_snapshot →
     CompoundMetrics.JobStats c = CompoundMetrics.JobStats sample_snapshot →
     c = sample_snapshot).
Proof.
  assert (Hqp : fold_name sample_codec "queues" ≠ fold_name sample_codec "processes")
    by (vm_compute; discriminate).
  assert (Hqj : fold_name sample_codec "queues" ≠ fold_name sample_codec "jobs")
    by (vm_compute; discriminate).
  assert (Hpj : fold_name sample_codec "processes" ≠ fold_name sample_codec "jobs")
    by (vm_compute; discriminate).
  assert (Hstatus : (200 ≤ 200 < 300)%Z) by lia.
  assert (Hserve :
    Forall (λ path, serve sample_server {| Method := "GET"; Path := path |}
                    = (200%Z, sample_metrics))
      ["/sidekiq/queue_metrics"; "/sidekiq/process_metrics"; "/sidekiq/job_stats";
       "/sidekiq/compound_metrics"])
    by (repeat constructor; vm_compute; reflexivity).
  assert (Hcm :
    value3 (returned (call (transport sample_codec) (SidekiqService.GetCompoundMetrics [])
                        sample_sidekiq ()))
    = Some sample_snapshot)
    by (vm_compute; reflexivity).
  split; [exact (conj Hqp (conj Hqj Hpj))|].
  split; [exact Hstatus|]. split; [exact Hserve|]. split; [exact Hcm|].
  exact (compound_metrics_is_union sample_codec Hqp Hqj Hpj sample_server 200
           sample_metrics sample_snapshot Hstatus Hserve Hcm).
Defined.

(** The sample server has no variable under "missing":
    [GetVariable] returns [NotFound]. *)
Lemma missing_variable_is_NotFound_witness :
  let r := {| Method := "GET"; Path := "admin/ci/variables/missing" |} in
  apply_options []
    {| Method := "GET"; Path := "admin/ci/variables/" +:+ url.PathEscape "missing" |}
    = Ok r ∧
  (serve sample_server r).1 = 404%Z ∧
  returned (call (transport sample_codec) (InstanceVariablesService.GetVariable "missing" [])
              sample_variables ())
    = (None, Some {| StatusCode := 404 |}, Some NotFound) ∧
  (∀ status, NotFound ≠ TransportError status) ∧
  NotFound ≠ DecodeError.
Proof.
  intros r.
  assert (Hr : apply_options []
                 {| Method := "GET";
                    Path := "admin/ci/variables/" +:+ url.PathEscape "missing" |} = Ok r)
    by reflexivity.
  assert (Hs : (serve sample_server r).1 = 404%Z) by (vm_compute; reflexivity).
  split; [exact Hr|]. split; [exact Hs|].
  exact (missing_variable_is_NotFound sample_codec sample_server "missing" [] r Hr Hs).
Defined.

End Samples.

(** ** Beyond the claims: what the methods return and hand over *)

Section Outcomes.
Context `{ClientAPI} {W : Type} (T : Transport W).

(** A round trip whose request was built: [Do] ran in the world
    [NewRequest] left, and its three results are the round trip's. *)
Lemma round_trip_built c method u opt options t (v : cell t) w req w1 resp e v' w2 :
  on_NewRequest T c method u opt options w = (req, None, w1) →
  on_Do T c req t v w1 = (resp, e, v', w2) →
  round_trip T c method u opt options t v w
  = ((resp, e, v'), w2,
     [NewRequest_call c method u opt options req None; Do_call c req t v resp e v']).
Proof. intros Hn Hd. unfold round_trip. by rewrite Hn, Hd. Qed.

Ltac built Hn Hd :=
  cbv beta delta [http.MethodGet http.MethodPost http.MethodPut http.MethodDelete
                  Sprintf_variables];
  rewrite (round_trip_built _ _ _ _ _ _ _ _ _ _ _ _ _ _ Hn Hd); reflexivity.

(** X1. When [NewRequest] and [Do] both return a nil error, each decoding
    method of the instance-variable service returns a nil error, the
    response [Do] returned and what [Do] left in the variable it was
    handed: the slice itself for [ListVariables] (nil when [Do] wrote
    nothing), a non-nil pointer to the struct for the other three.  [Do]
    ran in the world [NewRequest] left; the receiver is untouched. *)
Theorem instance_variables_success
    (s : InstanceVariablesService.t) (w : W) (key : string)
    (list_opt : ptr ListInstanceVariablesOptions)
    (create_opt : ptr CreateInstanceVariableOptions)
    (update_opt : ptr UpdateInstanceVariableOptions)
    (options : list RequestOptionFunc)
    (req : ptr Request) (w1 w2 : W) (resp : ptr Response) :
  let c := InstanceVariablesService.client s in
  let u := "admin/ci/variables/" +:+ url.PathEscape key in
  (∀ vs : slice (ptr InstanceVariable),
     on_NewRequest T c "GET" "admin/ci/variables" (list_options list_opt) options w
       = (req, None, w1) →
     on_Do T c req into_InstanceVariables None w1 = (resp, None, vs, w2) →
     call T (InstanceVariablesService.ListVariables list_opt options) s w
     = ((vs, resp, None), s, w2,
        [NewRequest_call c "GET" "admin/ci/variables" (list_options list_opt) options
           req None;
         Do_call c req into_InstanceVariables None resp None vs])) ∧
  (∀ v : InstanceVariable,
     on_NewRequest T c "GET" u nil_body options w = (req, None, w1) →
     on_Do T c req into_InstanceVariable InstanceVariable.zero w1 = (resp, None, v, w2) →
     call T (InstanceVariablesService.GetVariable key options) s w
     = ((Some v, resp, None), s, w2,
        [NewRequest_call c "GET" u nil_body options req None;
         Do_call c req into_InstanceVariable InstanceVariable.zero resp None v])) ∧
  (∀ v : InstanceVariable,
     on_NewRequest T c "POST" "admin/ci/variables" (create_options create_opt) options w
       = (req, None, w1) →
     on_Do T c req into_InstanceVariable InstanceVariable.zero w1 = (resp, None, v, w2) →
     call T (InstanceVariablesService.CreateVariable create_opt options) s w
     = ((Some v, resp, None), s, w2,
        [NewRequest_call c "POST" "admin/ci/variables" (create_options create_opt)
           options req None;
         Do_call c req into_InstanceVariable InstanceVariable.zero resp None v])) ∧
  (∀ v : InstanceVariable,
     on_NewRequest T c "PUT" u (update_options update_opt) options w = (req, None, w1) →
     on_Do T c req into_InstanceVariable InstanceVariable.zero w1 = (resp, None, v, w2) →
     call T (InstanceVariablesService.UpdateVariable key update_opt options) s w
     = ((Some v, resp, None), s, w2,
        [NewRequest_call c "PUT" u (update_options update_opt) options req None;
         Do_call c req into_InstanceVariable InstanceVariable.zero resp None v])).
Proof.
  cbv zeta. split_and!; intros v Hn Hd.
  - rewrite (ListVariables_round_trip T).
    built Hn Hd.
  - rewrite (GetVariable_round_trip T).
    built Hn Hd.
  - rewrite (CreateVariable_round_trip T).
    built Hn Hd.
  - rewrite (UpdateVariable_round_trip T).
    built Hn Hd.
Qed.

(** X2. When [NewRequest] and [Do] both return a nil error, each Sidekiq
    accessor returns a nil error, the response [Do] returned and a
    non-nil pointer to the snapshot [Do] left in the fresh struct it was
    handed. *)
Theorem sidekiq_success
    (s : SidekiqService.t) (w : W) (options : list RequestOptionFunc)
    (req : ptr Request) (w1 w2 : W) (resp : ptr Response) :
  let c := SidekiqService.client s in
  (∀ q : QueueMetrics,
     on_NewRequest T c "GET" "/sidekiq/queue_metrics" nil_body options w = (req, None, w1) →
     on_Do T c req into_QueueMetrics QueueMetrics.zero w1 = (resp, None, q, w2) →
     call T (SidekiqService.GetQueueMetrics options) s w
     = ((Some q, resp, None), s, w2,
        [NewRequest_call c "GET" "/sidekiq/queue_metrics" nil_body options req None;
         Do_call c req into_QueueMetrics QueueMetrics.zero resp None q])) ∧
  (∀ p : ProcessMetrics,
     on_NewRequest T c "GET" "/sidekiq/process_metrics" nil_body options w
       = (req, None, w1) →
     on_Do T c req into_ProcessMetrics ProcessMetrics.zero w1 = (resp, None, p, w2) →
     call T (SidekiqService.GetProcessMetrics options) s w
     = ((Some p, resp, None), s, w2,
        [NewRequest_call c "GET" "/sidekiq/process_metrics" nil_body options req None;
         Do_call c req into_ProcessMetrics ProcessMetrics.zero resp None p])) ∧
  (∀ j : JobStats,
     on_NewRequest T c "GET" "/sidekiq/job_stats" nil_body options w = (req, None, w1) →
     on_Do T c req into_JobStats JobStats.zero w1 = (resp, None, j, w2) →
     call T (SidekiqService.GetJobStats options) s w
     = ((Some j, resp, None), s, w2,
        [NewRequest_call c "GET" "/sidekiq/job_stats" nil_body options req None;
         Do_call c req into_JobStats JobStats.zero resp None j])) ∧
  (∀ cm : CompoundMetrics,
     on_NewRequest T c "GET" "/sidekiq/compound_metrics" nil_body options w
       = (req, None, w1) →
     on_Do T c req into_CompoundMetrics CompoundMetrics.zero w1 = (resp, None, cm, w2) →
     call T (SidekiqService.GetCompoundMetrics options) s w
     = ((Some cm, resp, None), s, w2,
        [NewRequest_call c "GET" "/sidekiq/compound_metrics" nil_body options req None;
         Do_call c req into_CompoundMetrics CompoundMetrics.zero resp None cm])).
Proof.
  cbv zeta. split_and!; intros v Hn Hd.
  - rewrite (GetQueueMetrics_round_trip T).
    built Hn Hd.
  - rewrite (GetProcessMetrics_round_trip T).
    built Hn Hd.
  - rewrite (GetJobStats_round_trip T).
    built Hn Hd.
  - rewrite (GetCompoundMetrics_round_trip T).
    built Hn Hd.
Qed.

(** X3. Once its request is built, [RemoveVariable] hands [Do] a nil
    target, so nothing is decoded, and returns the response and the error
    of [Do] as they are, whether that error is nil or not. *)
Theorem remove_returns_what_Do_returns
    (s : InstanceVariablesService.t) (w : W) (key : string)
    (options : list RequestOptionFunc)
    (req : ptr Request) (w1 w2 : W) (resp : ptr Response) (e : option error) :
  let c := InstanceVariablesService.client s in
  let u := "admin/ci/variables/" +:+ url.PathEscape key in
  on_NewRequest T c "DELETE" u nil_body options w = (req, None, w1) →
  on_Do T c req into_nil () w1 = (resp, e, (), w2) →
  call T (InstanceVariablesService.RemoveVariable key options) s w
  = ((resp, e), s, w2,
     [NewRequest_call c "DELETE" u nil_body options req None;
      Do_call c req into_nil () resp e ()]).
Proof.
  cbv zeta. intros Hn Hd. rewrite (RemoveVariable_round_trip T).
  built Hn Hd.
Qed.

(** The pointer a decoding method returns is nil exactly when its error
    is not. *)
Lemma finish3_Some_nil {t} (r : ptr Response * option error * cell t) :
  is_nil (value3 (finish3 Some r)) = negb (is_nil (error3 (finish3 Some r))).
Proof. destruct r as [[resp [e|]] v]; reflexivity. Qed.

(** X4. For the seven methods that return a pointer, against any
    transport: the pointer is nil exactly when the error is not nil.  A
    caller that checked the error may dereference the result. *)
Theorem pointer_nil_iff_error
    (iv : InstanceVariablesService.t) (sk : SidekiqService.t) (w : W) (key : string)
    (create_opt : ptr CreateInstanceVariableOptions)
    (update_opt : ptr UpdateInstanceVariableOptions)
    (options : list RequestOptionFunc) :
  let nil_iff_error {X} (r : option X * ptr Response * option error) :=
    is_nil (value3 r) = negb (is_nil (error3 r)) in
  nil_iff_error (returned (call T (InstanceVariablesService.GetVariable key options) iv w)) ∧
  nil_iff_error
    (returned (call T (InstanceVariablesService.CreateVariable create_opt options) iv w)) ∧
  nil_iff_error
    (returned (call T (InstanceVariablesService.UpdateVariable key update_opt options) iv w)) ∧
  nil_iff_error (returned (call T (SidekiqService.GetQueueMetrics options) sk w)) ∧
  nil_iff_error (returned (call T (SidekiqService.GetProcessMetrics options) sk w)) ∧
  nil_iff_error (returned (call T (SidekiqService.GetJobStats options) sk w)) ∧
  nil_iff_error (returned (call T (SidekiqService.GetCompoundMetrics options) sk w)).
Proof.
  intros nil_iff_error. subst nil_iff_error. cbn beta.
  rewrite (GetVariable_round_trip T), (CreateVariable_round_trip T),
    (UpdateVariable_round_trip T), (GetQueueMetrics_round_trip T),
    (GetProcessMetrics_round_trip T), (GetJobStats_round_trip T),
    (GetCompoundMetrics_round_trip T).
  split_and!;
    match goal with
    | |- context [round_trip T ?c ?m ?u ?o ?os ?t ?v ?w] =>
        destruct (round_trip T c m u o os t v w) as [[r w'] cs];
        exact (finish3_Some_nil (t := t) r)
    end.
Qed.

(** X5. Each instance-variable method executes the request it built, once
    and with its own client, into the target of its result: a slice of
    variables for [ListVariables], one variable for [GetVariable],
    [CreateVariable] and [UpdateVariable], nil for [RemoveVariable]; it
    executes nothing when building the request failed. *)
Theorem instance_variables_executions
    (s : InstanceVariablesService.t) (w : W) (key : string)
    (list_opt : ptr ListInstanceVariablesOptions)
    (create_opt : ptr CreateInstanceVariableOptions)
    (update_opt : ptr UpdateInstanceVariableOptions)
    (options : list RequestOptionFunc) :
  let c := InstanceVariablesService.client s in
  let u := "admin/ci/variables/" +:+ url.PathEscape key in
  executions (calls_of (call T (InstanceVariablesService.ListVariables list_opt options) s w))
    = executed T c "GET" "admin/ci/variables" (list_options list_opt) options
        into_InstanceVariables w ∧
  executions (calls_of (call T (InstanceVariablesService.GetVariable key options) s w))
    = executed T c "GET" u nil_body options into_InstanceVariable w ∧
  executions (calls_of (call T (InstanceVariablesService.CreateVariable create_opt options) s w))
    = executed T c "POST" "admin/ci/variables" (create_options create_opt) options
        into_InstanceVariable w ∧
  executions
    (calls_of (call T (InstanceVariablesService.UpdateVariable key update_opt options) s w))
    = executed T c "PUT" u (update_options update_opt) options into_InstanceVariable w ∧
  executions (calls_of (call T (InstanceVariablesService.RemoveVariable key options) s w))
    = executed T c "DELETE" u nil_body options into_nil w.
Proof.
  intros c u.
  rewrite (ListVariables_round_trip T), (GetVariable_round_trip T),
    (CreateVariable_round_trip T), (UpdateVariable_round_trip T),
    (RemoveVariable_round_trip T).
  split_and!;
    match goal with
    | |- context [round_trip T ?c ?m ?u ?o ?os ?t ?v ?w] =>
        let Hr := fresh "Hr" in
        pose proof (round_trip_executions T c m u o os t v w) as Hr;
        destruct (round_trip T c m u o os t v w) as [[? ?] ?]; exact Hr
    end.
Qed.

(** X6. Every [Do] call of every operation of both services is handed a
    fresh target: a zero-valued struct, a nil slice, or nil.  No result
    of an earlier call, and nothing of the receiver, goes into what is
    decoded. *)
Theorem targets_are_fresh (op : Operation) (w : W) :
  Forall (λ x, projT2 x = zero_of (projT1 x)) (do_inputs (calls (observe T op w))).
Proof.
  destruct op; cbn [observe];
    [ rewrite (ListVariables_round_trip T) | rewrite (GetVariable_round_trip T)
    | rewrite (CreateVariable_round_trip T) | rewrite (UpdateVariable_round_trip T)
    | rewrite (RemoveVariable_round_trip T) | rewrite (GetQueueMetrics_round_trip T)
    | rewrite (GetProcessMetrics_round_trip T) | rewrite (GetJobStats_round_trip T)
    | rewrite (GetCompoundMetrics_round_trip T) ];
    unfold round_trip;
    destruct (on_NewRequest _ _ _ _ _ _ _) as [[req [e|]] w1]; cbn;
    try destruct (on_Do _ _ _ _ _ _) as [[[resp e'] v'] w2]; cbn;
    repeat constructor.
Qed.

End Outcomes.

(** ** Beyond the claims: the key in the path *)

Section KeyPaths.
Context `{ClientAPI} {W : Type} (T : Transport W).

Lemma append_cons c a x : String c a +:+ x = String c (a +:+ x).
Proof. reflexivity. Qed.

Lemma append_inj_r a x y : a +:+ x = a +:+ y → x = y.
Proof.
  induction a as [|c a IH]; [done|]. rewrite !append_cons. intros [= Heq]. by apply IH.
Qed.

Lemma list_ascii_of_append a x :
  String.list_ascii_of_string (a +:+ x)
  = (String.list_ascii_of_string a ++ String.list_ascii_of_string x)%list.
Proof.
  induction a as [|c a IH]; [done|]. rewrite append_cons. cbn. by rewrite IH.
Qed.

Lemma length_append a x :
  String.length (a +:+ x) = (String.length a + String.length x)%nat.
Proof.
  induction a as [|c a IH]; [done|]. rewrite append_cons. cbn. by rewrite IH.
Qed.

Lemma slashes_append a x : slashes (a +:+ x) = (slashes a + slashes x)%nat.
Proof. unfold slashes. by rewrite list_ascii_of_append, filter_app, length_app. Qed.

Lemma slashes_none x : "/"%char ∉ String.list_ascii_of_string x → slashes x = 0%nat.
Proof.
  unfold slashes. induction (String.list_ascii_of_string x) as [|c l IH]; [done|].
  rewrite not_elem_of_cons. intros [Hc Hl].
  rewrite filter_cons_False by (intros ->; done). by apply IH.
Qed.

(** A byte that is kept, and a hex digit, are bytes of a segment. *)
Lemma kept_is_segment_byte c : url.shouldEscape c = false → segment_byte c = true.
Proof. destruct c as [[] [] [] [] [] [] [] []]; vm_compute; intros; done. Qed.

Lemma hexdigit_is_segment_byte n : segment_byte (url.hexdigit n) = true.
Proof.
  unfold url.hexdigit.
  destruct (N.to_nat n) as [|[|[|[|[|[|[|[|[|[|[|[|[|[|[|[|k]]]]]]]]]]]]]]]];
    vm_compute; reflexivity.
Qed.

Lemma escape_segment_bytes s :
  Forall (λ c, segment_byte c = true) (String.list_ascii_of_string (url.escape s)).
Proof.
  induction s as [|c r IH]; cbn; [constructor|].
  destruct (url.shouldEscape c) eqn:E; cbn.
  - repeat constructor; try apply hexdigit_is_segment_byte. exact IH.
  - constructor; [by apply kept_is_segment_byte|exact IH].
Qed.

Lemma escape_length s :
  (String.length s ≤ String.length (url.escape s) ≤ 3 * String.length s)%nat.
Proof.
  induction s as [|c r IH]; cbn; [lia|].
  destruct (url.shouldEscape c); cbn; lia.
Qed.

Lemma escape_kept s :
  forallb (λ c, negb (url.shouldEscape c)) (String.list_ascii_of_string s) = true →
  url.escape s = s.
Proof.
  induction s as [|c r IH]; cbn; [done|].
  intros [Hc Hr]%andb_true_iff. apply negb_true_iff in Hc. rewrite Hc. by rewrite IH.
Qed.

Lemma escape_inj k1 k2 : url.escape k1 = url.escape k2 → k1 = k2.
Proof.
  intros Heq. pose proof (unescape_escape k1) as H1.
  rewrite Heq, unescape_escape in H1. by simplify_eq.
Qed.

(** The one path the three methods that take a key build. *)
Lemma key_paths (s : InstanceVariablesService.t) (w : W) (key : string)
    (update_opt : ptr UpdateInstanceVariableOptions) (options : list RequestOptionFunc) :
  let u := Sprintf_variables (url.PathEscape key) in
  request_paths (calls_of (call T (InstanceVariablesService.GetVariable key options) s w))
    = [u] ∧
  request_paths
    (calls_of (call T (InstanceVariablesService.UpdateVariable key update_opt options) s w))
    = [u] ∧
  request_paths (calls_of (call T (InstanceVariablesService.RemoveVariable key options) s w))
    = [u].
Proof.
  destruct (instance_variables_requests T s w key None None update_opt options)
    as (_ & Hget & _ & Hupd & Hdel).
  split_and!; by eapply request_paths_requests.
Qed.

(** X7. Two different keys never share a request path: [GetVariable],
    [UpdateVariable] and [RemoveVariable] called with different keys
    build different paths, whatever the receivers, options and worlds. *)
Theorem different_keys_different_paths
    (s1 s2 : InstanceVariablesService.t) (w1 w2 : W) (key1 key2 : string)
    (opt1 opt2 : ptr UpdateInstanceVariableOptions)
    (options1 options2 : list RequestOptionFunc) :
  key1 ≠ key2 →
  request_paths (calls_of (call T (InstanceVariablesService.GetVariable key1 options1) s1 w1))
    ≠ request_paths
        (calls_of (call T (InstanceVariablesService.GetVariable key2 options2) s2 w2)) ∧
  request_paths
    (calls_of (call T (InstanceVariablesService.UpdateVariable key1 opt1 options1) s1 w1))
    ≠ request_paths
        (calls_of (call T (InstanceVariablesService.UpdateVariable key2 opt2 options2) s2 w2)) ∧
  request_paths
    (calls_of (call T (InstanceVariablesService.RemoveVariable key1 options1) s1 w1))
    ≠ request_paths
        (calls_of (call T (InstanceVariablesService.RemoveVariable key2 options2) s2 w2)).
Proof.
  intros Hne.
  destruct (key_paths s1 w1 key1 opt1 options1) as (-> & -> & ->).
  destruct (key_paths s2 w2 key2 opt2 options2) as (-> & -> & ->).
  assert (Hu : [Sprintf_variables (url.PathEscape key1)]
               ≠ [Sprintf_variables (url.PathEscape key2)]).
  { intros [= Heq]. apply Hne, escape_inj. by eapply append_inj_r. }
  done.
Qed.

(** X8. Whatever the key, the path of [GetVariable], [UpdateVariable] and
    [RemoveVariable] has exactly the three ['/'] of "admin/ci/variables/",
    and its last segment is made of letters, digits, [-_.~$&+:=@] and
    ['%'] only: a key cannot add a segment, a query, a fragment, a space
    or a byte outside ASCII to the path. *)
Theorem key_cannot_leave_its_segment
    (s : InstanceVariablesService.t) (w : W) (key : string)
    (update_opt : ptr UpdateInstanceVariableOptions) (options : list RequestOptionFunc) :
  ∃ u : string,
    request_paths (calls_of (call T (InstanceVariablesService.GetVariable key options) s w))
      = [u] ∧
    request_paths
      (calls_of (call T (InstanceVariablesService.UpdateVariable key update_opt options) s w))
      = [u] ∧
    request_paths (calls_of (call T (InstanceVariablesService.RemoveVariable key options) s w))
      = [u] ∧
    slashes u = 3%nat ∧
    Forall (λ c, segment_byte c = true) (String.list_ascii_of_string (last_segment u)).
Proof.
  exists (Sprintf_variables (url.PathEscape key)).
  destruct (key_paths s w key update_opt options) as (Hg & Hu & Hd).
  split_and!; try done.
  - unfold Sprintf_variables. rewrite slashes_append.
    by rewrite (slashes_none (url.PathEscape key)) by apply escape_no_slash.
  - rewrite last_segment_variables by apply escape_no_slash.
    apply escape_segment_bytes.
Qed.

(** X9. A key made only of bytes that need no escaping (letters, digits
    and [-_.~$&+:=@]) goes into the path as it is: the three methods
    build "admin/ci/variables/" followed by the key itself.  This
    includes the keys "." and "..". *)
Theorem plain_key_is_kept
    (s : InstanceVariablesService.t) (w : W) (key : string)
    (update_opt : ptr UpdateInstanceVariableOptions) (options : list RequestOptionFunc) :
  forallb (λ c, negb (url.shouldEscape c)) (String.list_ascii_of_string key) = true →
  request_paths (calls_of (call T (InstanceVariablesService.GetVariable key options) s w))
    = ["admin/ci/variables/" +:+ key] ∧
  request_paths
    (calls_of (call T (InstanceVariablesService.UpdateVariable key update_opt options) s w))
    = ["admin/ci/variables/" +:+ key] ∧
  request_paths (calls_of (call T (InstanceVariablesService.RemoveVariable key options) s w))
    = ["admin/ci/variables/" +:+ key].
Proof.
  intros Hkey. destruct (key_paths s w key update_opt options) as (Hg & Hu & Hd).
  unfold url.PathEscape in *. rewrite (escape_kept key Hkey) in Hg, Hu, Hd. done.
Qed.

(** X10. The path built for a key is at least 19 bytes longer than the
    key and at most 19 bytes longer than three times the key: escaping
    writes one or three bytes for each byte of the key. *)
Theorem key_path_length
    (s : InstanceVariablesService.t) (w : W) (key : string)
    (update_opt : ptr UpdateInstanceVariableOptions) (options : list RequestOptionFunc) :
  ∃ u : string,
    request_paths (calls_of (call T (InstanceVariablesService.GetVariable key options) s w))
      = [u] ∧
    request_paths
      (calls_of (call T (InstanceVariablesService.UpdateVariable key update_opt options) s w))
      = [u] ∧
    request_paths (calls_of (call T (InstanceVariablesService.RemoveVariable key options) s w))
      = [u] ∧
    (19 + String.length key ≤ String.length u ≤ 19 + 3 * String.length key)%nat.
Proof.
  exists (Sprintf_variables (url.PathEscape key)).
  destruct (key_paths s w key update_opt options) as (Hg & Hu & Hd).
  split_and!; try done;
    unfold Sprintf_variables; rewrite length_append;
    pose proof (escape_length key); cbn; unfold url.PathEscape; lia.
Qed.

End KeyPaths.

(** ** Beyond the claims: the fields of a body *)

Section Bodies.
Context `{ClientAPI}.

Lemma elem_of_omitempty {A} name (inj : A → FieldValue) (p : ptr A) f :
  f ∈ omitempty name inj p ↔ ∃ a, p = Some a ∧ f = (name, inj a).
Proof.
  destruct p as [a|]; cbn.
  - rewrite list_elem_of_singleton. split; [by exists a|]. by intros (? & [= <-] & ->).
  - rewrite elem_of_nil. split; [done|]. by intros (? & ? & _).
Qed.

Lemma elem_of_update_fields (o : UpdateInstanceVariableOptions) f :
  f ∈ update_fields o ↔
  (∃ a, UpdateInstanceVariableOptions.Value o = Some a ∧ f = ("value", string_field a)) ∨
  (∃ a, UpdateInstanceVariableOptions.Description o = Some a ∧
        f = ("description", string_field a)) ∨
  (∃ a, UpdateInstanceVariableOptions.Masked o = Some a ∧ f = ("masked", bool_field a)) ∨
  (∃ a, UpdateInstanceVariableOptions.Protected o = Some a ∧
        f = ("protected", bool_field a)) ∨
  (∃ a, UpdateInstanceVariableOptions.Raw o = Some a ∧ f = ("raw", bool_field a)) ∨
  (∃ a, UpdateInstanceVariableOptions.VariableType o = Some a ∧
        f = ("variable_type", variable_type_field a)).
Proof. unfold update_fields. rewrite !elem_of_app, !elem_of_omitempty. tauto. Qed.

Lemma elem_of_create_fields (o : CreateInstanceVariableOptions) f :
  f ∈ create_fields o ↔
  (∃ a, CreateInstanceVariableOptions.Key o = Some a ∧ f = ("key", string_field a)) ∨
  (∃ a, CreateInstanceVariableOptions.Value o = Some a ∧ f = ("value", string_field a)) ∨
  (∃ a, CreateInstanceVariableOptions.Description o = Some a ∧
        f = ("description", string_field a)) ∨
  (∃ a, CreateInstanceVariableOptions.Masked o = Some a ∧ f = ("masked", bool_field a)) ∨
  (∃ a, CreateInstanceVariableOptions.Protected o = Some a ∧
        f = ("protected", bool_field a)) ∨
  (∃ a, CreateInstanceVariableOptions.Raw o = Some a ∧ f = ("raw", bool_field a)) ∨
  (∃ a, CreateInstanceVariableOptions.VariableType o = Some a ∧
        f = ("variable_type", variable_type_field a)).
Proof. unfold create_fields. rewrite !elem_of_app, !elem_of_omitempty. tauto. Qed.

Ltac field_iff lem :=
  let x := fresh "x" in
  let Hd := fresh "Hd" in
  intros x; rewrite lem; split;
  [ intros Hd;
    repeat (destruct Hd as [Hd|Hd]; [by destruct Hd as (? & ? & [= <-])|]);
    by destruct Hd as (? & ? & [= <-])
  | intros Hd; eauto 12 ].

(** X11. The body of an update carries a field exactly when its option is
    not nil, with the value the option points to: an empty string or a
    false that was set is sent, an option left nil is not.  No name
    appears twice, and the body is empty exactly when all six options are
    nil. *)
Theorem update_body_fields
    (list_fields : ListOptions → list (string * FieldValue))
    (o : UpdateInstanceVariableOptions) :
  let body := payload list_fields (update_options (Some o)) in
  (∀ x, ("value", string_field x) ∈ body ↔ UpdateInstanceVariableOptions.Value o = Some x) ∧
  (∀ x, ("description", string_field x) ∈ body
        ↔ UpdateInstanceVariableOptions.Description o = Some x) ∧
  (∀ x, ("masked", bool_field x) ∈ body ↔ UpdateInstanceVariableOptions.Masked o = Some x) ∧
  (∀ x, ("protected", bool_field x) ∈ body
        ↔ UpdateInstanceVariableOptions.Protected o = Some x) ∧
  (∀ x, ("raw", bool_field x) ∈ body ↔ UpdateInstanceVariableOptions.Raw o = Some x) ∧
  (∀ x, ("variable_type", variable_type_field x) ∈ body
        ↔ UpdateInstanceVariableOptions.VariableType o = Some x) ∧
  NoDup body.*1 ∧
  (body = [] ↔
   UpdateInstanceVariableOptions.Value o = None ∧
   UpdateInstanceVariableOptions.Description o = None ∧
   UpdateInstanceVariableOptions.Masked o = None ∧
   UpdateInstanceVariableOptions.Protected o = None ∧
   UpdateInstanceVariableOptions.Raw o = None ∧
   UpdateInstanceVariableOptions.VariableType o = None).
Proof.
  cbn zeta. cbn [payload from_option].
  split_and!; try (field_iff elem_of_update_fields).
  - destruct o as [[?|] [?|] [?|] [?|] [?|] [?|]]; cbn;
      match goal with |- ?P => apply (bool_decide_unpack P) end; vm_compute; exact I.
  - destruct o as [[?|] [?|] [?|] [?|] [?|] [?|]]; cbn;
      (split; [intros Hb; try discriminate Hb; by split_and!
              |intros (? & ? & ? & ? & ? & ?); try discriminate; reflexivity]).
Qed.

(** X12. The body of a create carries the key exactly when the Key option
    is not nil, and each other field exactly when its option is not nil,
    with the value pointed to; its names are among key, value,
    description, masked, protected, raw and variable_type, none twice. *)
Theorem create_body_fields
    (list_fields : ListOptions → list (string * FieldValue))
    (o : CreateInstanceVariableOptions) :
  let body := payload list_fields (create_options (Some o)) in
  (∀ x, ("key", string_field x) ∈ body ↔ CreateInstanceVariableOptions.Key o = Some x) ∧
  (∀ x, ("value", string_field x) ∈ body ↔ CreateInstanceVariableOptions.Value o = Some x) ∧
  (∀ x, ("description", string_field x) ∈ body
        ↔ CreateInstanceVariableOptions.Description o = Some x) ∧
  (∀ x, ("masked", bool_field x) ∈ body ↔ CreateInstanceVariableOptions.Masked o = Some x) ∧
  (∀ x, ("protected", bool_field x) ∈ body
        ↔ CreateInstanceVariableOptions.Protected o = Some x) ∧
  (∀ x, ("raw", bool_field x) ∈ body ↔ CreateInstanceVariableOptions.Raw o = Some x) ∧
  (∀ x, ("variable_type", variable_type_field x) ∈ body
        ↔ CreateInstanceVariableOptions.VariableType o = Some x) ∧
  Forall (λ f, f.1 ∈ ["key"; "value"; "description"; "masked"; "protected"; "raw";
                      "variable_type"]) body ∧
  NoDup body.*1.
Proof.
  cbn zeta. cbn [payload from_option].
  split_and!; try (field_iff elem_of_create_fields).
  - apply Forall_forall. intros f Hf. apply elem_of_create_fields in Hf.
    rewrite !elem_of_cons.
    destruct Hf as [(a & _ & ->)|[(a & _ & ->)|[(a & _ & ->)|[(a & _ & ->)|
                   [(a & _ & ->)|[(a & _ & ->)|(a & _ & ->)]]]]]]; cbn; tauto.
  - destruct o as [[?|] [?|] [?|] [?|] [?|] [?|] [?|]]; cbn;
      match goal with |- ?P => apply (bool_decide_unpack P) end; vm_compute; exact I.
Qed.

End Bodies.

(** ** Beyond the claims: the order of the calls *)

Section Order.
Context `{ClientAPI} {W : Type} (T : Transport W).

(** X13. Every operation of both services calls [NewRequest] first and
    exactly once.  When that returned an error it calls nothing else;
    otherwise it calls [Do] once, on the request [NewRequest] returned
    and on the same client, and then nothing else. *)
Theorem calls_in_order (op : Operation) (w : W) :
  ∃ c method u opt options req e,
    match e with
    | Some _ =>
        calls (observe T op w) = [NewRequest_call c method u opt options req e]
    | None =>
        ∃ t (v : cell t) resp e' v',
          calls (observe T op w)
          = [NewRequest_call c method u opt options req None;
             Do_call c req t v resp e' v']
    end.
Proof.
  destruct (observe_round_trip T op w)
    as (c & m & u & o & os & t & v & Hc & _).
  cbn zeta in Hc. rewrite Hc. unfold round_trip.
  destruct (on_NewRequest T c m u o os w) as [[req [e|]] w1] eqn:Hn.
  - by exists c, m, u, o, os, req, (Some e).
  - destruct (on_Do T c req t v w1) as [[[resp e'] v'] w2].
    exists c, m, u, o, os, req, None. by exists t, v, resp, e', v'.
Qed.

End Order.

(** ** The further theorems at work on the sample servers *)

Section MoreSamples.
Import fixture samples.

(** From the sample server, [ListVariables] returns the two variables of
    the list, [GetVariable] and [UpdateVariable] the variable under
    "a/b"; from the server that answers null, [CreateVariable] returns a
    pointer to a zero variable. *)
Lemma instance_variables_success_witness :
  let T := transport sample_codec in
  let ok := Some {| StatusCode := 200 |} in
  let get := Some {| Method := "GET"; Path := "admin/ci/variables/a%2Fb" |} in
  let put := Some {| Method := "PUT"; Path := "admin/ci/variables/a%2Fb" |} in
  let list := Some {| Method := "GET"; Path := "admin/ci/variables" |} in
  let post := Some {| Method := "POST"; Path := "admin/ci/variables" |} in
  let nulls := {| InstanceVariablesService.client := null_server |} in
  call T (InstanceVariablesService.ListVariables None []) sample_variables ()
  = ((Some [Some decoded_variable; Some decoded_variable], ok, None), sample_variables, (),
     [NewRequest_call sample_server "GET" "admin/ci/variables" (list_options None) []
        list None;
      Do_call sample_server list into_InstanceVariables None ok None
        (Some [Some decoded_variable; Some decoded_variable])]) ∧
  call T (InstanceVariablesService.GetVariable "a/b" []) sample_variables ()
  = ((Some decoded_variable, ok, None), sample_variables, (),
     [NewRequest_call sample_server "GET" "admin/ci/variables/a%2Fb" nil_body [] get None;
      Do_call sample_server get into_InstanceVariable InstanceVariable.zero ok None
        decoded_variable]) ∧
  call T (InstanceVariablesService.CreateVariable None []) nulls ()
  = ((Some InstanceVariable.zero, ok, None), nulls, (),
     [NewRequest_call null_server "POST" "admin/ci/variables" (create_options None) []
        post None;
      Do_call null_server post into_InstanceVariable InstanceVariable.zero ok None
        InstanceVariable.zero]) ∧
  call T (InstanceVariablesService.UpdateVariable "a/b" (Some update_masked) [])
    sample_variables ()
  = ((Some decoded_variable, ok, None), sample_variables, (),
     [NewRequest_call sample_server "PUT" "admin/ci/variables/a%2Fb"
        (update_options (Some update_masked)) [] put None;
      Do_call sample_server put into_InstanceVariable InstanceVariable.zero ok None
        decoded_variable]).
Proof.
  intros T ok get put list post nulls. split_and!.
  - refine (proj1 (instance_variables_success T sample_variables () "a/b" None None None []
                     list () () ok) _ _ _); [reflexivity|vm_compute; reflexivity].
  - refine (proj1 (proj2 (instance_variables_success T sample_variables () "a/b" None None
                            None [] get () () ok)) _ _ _);
      [reflexivity|vm_compute; reflexivity].
  - refine (proj1 (proj2 (proj2 (instance_variables_success T nulls () "a/b" None None
                                   None [] post () () ok))) _ _ _);
      [reflexivity|vm_compute; reflexivity].
  - refine (proj2 (proj2 (proj2 (instance_variables_success T sample_variables () "a/b"
                                   None None (Some update_masked) [] put () () ok))) _ _ _);
      [reflexivity|vm_compute; reflexivity].
Defined.

(** From the sample server each accessor returns its part of the sample
    metrics. *)
Lemma sidekiq_success_witness :
  let T := transport sample_codec in
  let ok := Some {| StatusCode := 200 |} in
  let at_path p := Some {| Method := "GET"; Path := p |} in
  returned (call T (SidekiqService.GetQueueMetrics []) sample_sidekiq ())
  = (Some (CompoundMetrics.QueueMetrics sample_snapshot), ok, None) ∧
  returned (call T (SidekiqService.GetProcessMetrics []) sample_sidekiq ())
  = (Some (CompoundMetrics.ProcessMetrics sample_snapshot), ok, None) ∧
  returned (call T (SidekiqService.GetJobStats []) sample_sidekiq ())
  = (Some (CompoundMetrics.JobStats sample_snapshot), ok, None) ∧
  returned (call T (SidekiqService.GetCompoundMetrics []) sample_sidekiq ())
  = (Some sample_snapshot, ok, None).
Proof.
  intros T ok at_path. split_and!.
  - rewrite (proj1 (sidekiq_success T sample_sidekiq () []
                      (at_path "/sidekiq/queue_metrics") () () ok)
               (CompoundMetrics.QueueMetrics sample_snapshot));
      [reflexivity|reflexivity|vm_compute; reflexivity].
  - rewrite (proj1 (proj2 (sidekiq_success T sample_sidekiq () []
                             (at_path "/sidekiq/process_metrics") () () ok))
               (CompoundMetrics.ProcessMetrics sample_snapshot));
      [reflexivity|reflexivity|vm_compute; reflexivity].
  - rewrite (proj1 (proj2 (proj2 (sidekiq_success T sample_sidekiq () []
                                    (at_path "/sidekiq/job_stats") () () ok)))
               (CompoundMetrics.JobStats sample_snapshot));
      [reflexivity|reflexivity|vm_compute; reflexivity].
  - rewrite (proj2 (proj2 (proj2 (sidekiq_success T sample_sidekiq () []
                                    (at_path "/sidekiq/compound_metrics") () () ok)))
               sample_snapshot);
      [reflexivity|reflexivity|vm_compute; reflexivity].
Defined.

(** Removing the variable the sample server holds, and one it does not:
    the response and the error of [Do] come back as they are. *)
Lemma remove_returns_what_Do_returns_witness :
  let T := transport sample_codec in
  let held := Some {| Method := "DELETE"; Path := "admin/ci/variables/a%2Fb" |} in
  let missing := Some {| Method := "DELETE"; Path := "admin/ci/variables/missing" |} in
  call T (InstanceVariablesService.RemoveVariable "a/b" []) sample_variables ()
  = ((Some {| StatusCode := 200 |}, None), sample_variables, (),
     [NewRequest_call sample_server "DELETE" "admin/ci/variables/a%2Fb" nil_body []
        held None;
      Do_call sample_server held into_nil () (Some {| StatusCode := 200 |}) None ()]) ∧
  call T (InstanceVariablesService.RemoveVariable "missing" []) sample_variables ()
  = ((Some {| StatusCode := 404 |}, Some NotFound), sample_variables, (),
     [NewRequest_call sample_server "DELETE" "admin/ci/variables/missing" nil_body []
        missing None;
      Do_call sample_server missing into_nil () (Some {| StatusCode := 404 |})
        (Some NotFound) ()]).
Proof.
  intros T held missing. split.
  - refine (remove_returns_what_Do_returns T sample_variables () "a/b" [] held () ()
              (Some {| StatusCode := 200 |}) None _ _);
      [reflexivity|vm_compute; reflexivity].
  - refine (remove_returns_what_Do_returns T sample_variables () "missing" [] missing () ()
              (Some {| StatusCode := 404 |}) (Some NotFound) _ _);
      [reflexivity|vm_compute; reflexivity].
Defined.

(** The key "a/b" and the key that spells its escaped form get different
    paths. *)
Lemma different_keys_different_paths_witness :
  let T := transport sample_codec in
  "a/b" ≠ "a%2Fb" ∧
  request_paths
    (calls_of (call T (InstanceVariablesService.GetVariable "a/b" []) sample_variables ()))
  ≠ request_paths
      (calls_of (call T (InstanceVariablesService.GetVariable "a%2Fb" []) sample_variables ())) ∧
  request_paths
    (calls_of (call T (InstanceVariablesService.UpdateVariable "a/b" None [])
                 sample_variables ()))
  ≠ request_paths
      (calls_of (call T (InstanceVariablesService.UpdateVariable "a%2Fb" None [])
                   sample_variables ())) ∧
  request_paths
    (calls_of (call T (InstanceVariablesService.RemoveVariable "a/b" []) sample_variables ()))
  ≠ request_paths
      (calls_of (call T (InstanceVariablesService.RemoveVariable "a%2Fb" [])
                   sample_variables ())).
Proof.
  intros T.
  assert (Hne : "a/b" ≠ "a%2Fb") by discriminate.
  split; [exact Hne|].
  exact (different_keys_different_paths T sample_variables sample_variables () ()
           "a/b" "a%2Fb" None None [] [] Hne).
Defined.

(** A usual variable name, and the key "..", go into the path as they
    are. *)
Lemma plain_key_is_kept_witness :
  let T := transport sample_codec in
  forallb (λ c, negb (url.shouldEscape c)) (String.list_ascii_of_string "DB_URL_1") = true ∧
  forallb (λ c, negb (url.shouldEscape c)) (String.list_ascii_of_string "..") = true ∧
  request_paths
    (calls_of (call T (InstanceVariablesService.GetVariable "DB_URL_1" []) sample_variables ()))
  = ["admin/ci/variables/DB_URL_1"] ∧
  request_paths
    (calls_of (call T (InstanceVariablesService.RemoveVariable ".." []) sample_variables ()))
  = ["admin/ci/variables/.."].
Proof.
  intros T.
  assert (H1 : forallb (λ c, negb (url.shouldEscape c))
                 (String.list_ascii_of_string "DB_URL_1") = true) by reflexivity.
  assert (H2 : forallb (λ c, negb (url.shouldEscape c))
                 (String.list_ascii_of_string "..") = true) by reflexivity.
  split; [exact H1|]. split; [exact H2|]. split.
  - exact (proj1 (plain_key_is_kept T sample_variables () "DB_URL_1" None [] H1)).
  - exact (proj2 (proj2 (plain_key_is_kept T sample_variables () ".." None [] H2))).
Defined.

(** The [NotFound] that [GetVariable] returns for a missing key is the
    error its [Do] call returned. *)
Lemma error_has_cause_witness :
  let T := transport sample_codec in
  let op := GetVariable_of sample_variables "missing" [] in
  err (observe T op ()) = Some NotFound ∧
  decoded_nil (observe T op ()) = true ∧
  ∃ call, call ∈ calls (observe T op ()) ∧ call_error call = Some NotFound.
Proof.
  intros T op.
  assert (He : err (observe T op ()) = Some NotFound) by reflexivity.
  split; [exact He|].
  exact (error_has_cause T op () NotFound He).
Defined.

End MoreSamples.
